(** * Image uploader backend (Backend/server.js): a shallow embedding

    The backend is one Node.js file.  It resolves its configuration
    (database credentials and port), bootstraps the [Images] table, and
    serves three HTTP operations: upload, list and delete.  Every
    operation touches two resources, the file system and the SQL store,
    and the statements below are about how the two are kept in step.

    The embedding is a state-and-exception monad over a [World] that
    holds what the code can observe: [process.env], [process.pkg], the
    lines waiting on standard input, the files on disk, the [Images]
    table, and a chronological trace of the effects performed.  What the
    environment decides (a query that fails, a file that cannot be
    removed) is an oracle of the world, [fault].

    Boundaries of the model.  One request runs at a time: the
    interleaving of requests at their [await]s is not represented.
    Express, multer, mssql and Node's [fs] and [path] are libraries; what
    the program relies on of them is written out where it is used.
    Numbers are integers, with [NaN] apart. *)

From Stdlib Require Import ZArith Ascii String List Lia DecimalString DecimalPos.
From stdpp Require Import base option gmap strings list.

#[local] Set Warnings "-register-all".

Open Scope string_scope.
Open Scope Z_scope.

(** ** JavaScript values *)

(** A thrown object: the [name] and [message] of an [Error]. *)
Record Error : Type := mkError { err_name : string; err_message : string }.

(** The values the program handles: parsed JSON, route parameters,
    response bodies, console arguments.  [VNum] holds integers only; the
    one other number the code can produce, [NaN] (from [parseInt]), has
    its own constructor.  Objects keep their keys in insertion order. *)
Inductive Value : Type :=
| VUndefined
| VNull
| VBool (b : bool)
| VNum (n : Z)
| VNaN
| VStr (s : string)
| VError (e : Error)
| VArr (items : list Value)
| VObj (fields : list (string * Value)).

(** JavaScript truthiness ([if (v)], [!v], [a && b]). *)
Definition truthy (v : Value) : bool :=
  match v with
  | VUndefined | VNull | VNaN => false
  | VBool b => b
  | VNum n => negb (n =? 0)
  | VStr s => negb (String.eqb s "")
  | VError _ | VArr _ | VObj _ => true
  end.

(** First binding of [k] in an object's field list. *)
Fixpoint assoc (k : string) (fields : list (string * Value)) : option Value :=
  match fields with
  | [] => None
  | (k', v) :: rest => if String.eqb k k' then Some v else assoc k rest
  end.

(** [fields[k] = v]: overwrite in place, or append a new key. *)
Fixpoint assoc_set (k : string) (v : Value) (fields : list (string * Value))
  : list (string * Value) :=
  match fields with
  | [] => [(k, v)]
  | (k', v') :: rest =>
      if String.eqb k k' then (k, v) :: rest else (k', v') :: assoc_set k v rest
  end.

(** The classes declared at the top of server.js, and the library errors
    the model raises. *)
Definition ConfigurationError (message : string) : Error := mkError "ConfigurationError" message.
Definition DatabaseError (message : string) : Error := mkError "DatabaseError" message.
Definition FileSystemError (message : string) : Error := mkError "FileSystemError" message.
Definition ValidationError (message : string) : Error := mkError "ValidationError" message.
Definition ResourceNotFoundError (message : string) : Error := mkError "ResourceNotFoundError" message.
Definition TypeError (message : string) : Error := mkError "TypeError" message.
Definition SyntaxError (message : string) : Error := mkError "SyntaxError" message.
Definition MulterError (message : string) : Error := mkError "MulterError" message.
Definition ENOENT (p : string) : Error :=
  mkError "Error" ("ENOENT: no such file or directory, " ++ p).
Definition RequestError (message : string) : Error := mkError "RequestError" message.

(** ** Strings *)

(** A [string] is read as a sequence of code units below 256. *)
Definition code (c : ascii) : Z := Z.of_N (N_of_ascii c).

(** [StrWhiteSpaceChar] restricted to code units below 256: TAB, LF, VT,
    FF, CR, SP and NBSP. *)
Definition isWhiteSpace (c : ascii) : bool :=
  let n := code c in
  (n =? 9) || (n =? 10) || (n =? 11) || (n =? 12) || (n =? 13) || (n =? 32) || (n =? 160).

Fixpoint trimStart (s : string) : string :=
  match s with
  | String c rest => if isWhiteSpace c then trimStart rest else s
  | EmptyString => EmptyString
  end.

(** Value of a digit in radix up to 36. *)
Definition digitValue (c : ascii) : option Z :=
  let n := code c in
  if (48 <=? n) && (n <=? 57) then Some (n - 48)
  else if (97 <=? n) && (n <=? 122) then Some (n - 87)
  else if (65 <=? n) && (n <=? 90) then Some (n - 55)
  else None.

(** The longest prefix of radix-[radix] digits, as a number; [acc] is
    [None] while no digit has been read. *)
Fixpoint leadingDigits (radix : Z) (s : string) (acc : option Z) : option Z :=
  match s with
  | String c rest =>
      match digitValue c with
      | Some d =>
          if d <? radix
          then leadingDigits radix rest (Some (radix * default 0 acc + d))
          else acc
      | None => acc
      end
  | EmptyString => acc
  end.

(** [parseInt(s)] with no radix argument; [None] is [NaN].  The result is
    the exact integer: JavaScript rounds it to a double, which changes
    the value beyond 2^53 but never whether it is [NaN]. *)
Definition parseInt (s : string) : option Z :=
  let s1 := trimStart s in
  let '(sign, s2) :=
    match s1 with
    | String "-" rest => (-1, rest)
    | String "+" rest => (1, rest)
    | _ => (1, s1)
    end in
  let '(radix, s3) :=
    match s2 with
    | String "0" (String "x" rest) => (16, rest)
    | String "0" (String "X" rest) => (16, rest)
    | _ => (10, s2)
    end in
  match leadingDigits radix s3 None with
  | Some n => Some (sign * n)
  | None => None
  end.

(** The number [parseInt] returns, as a value. *)
Definition number (n : option Z) : Value :=
  match n with Some z => VNum z | None => VNaN end.

(** [isNaN] on the result of [parseInt]. *)
Definition isNaN (n : option Z) : bool :=
  match n with Some _ => false | None => true end.

(** [parseInt(v)] of a value: a string is parsed, an integer prints and
    parses back to itself, and nothing else the program passes has a
    leading digit. *)
Definition parseIntOf (v : Value) : option Z :=
  match v with
  | VStr s => parseInt s
  | VNum n => Some n
  | _ => None
  end.

(** [s.toLowerCase()] on the letters A to Z. *)
Definition lowerChar (c : ascii) : ascii :=
  let n := code c in
  if (65 <=? n) && (n <=? 90) then ascii_of_N (Z.to_N (n + 32)) else c.

Fixpoint toLowerCase (s : string) : string :=
  match s with
  | String c rest => String (lowerChar c) (toLowerCase rest)
  | EmptyString => EmptyString
  end.

(** [s.startsWith('/')] and [s.substring(1)]. *)
Definition startsWithSlash (s : string) : bool :=
  match s with String "/" _ => true | _ => false end.

Definition substring1 (s : string) : string :=
  match s with String _ rest => rest | EmptyString => EmptyString end.

(** Decimal rendering of an integer inside a template literal. *)
Definition decimal (n : Z) : string := NilZero.string_of_int (Z.to_int n).

(** ** Node's path module and the working directory *)

(** [path.resolve], [path.join] and [path.extname] belong to Node, and
    [process.cwd()] to the process; the model takes them as an interface
    and assumes nothing about them. *)
Class NodePath : Type := {
  baseDir : string;
  path_resolve : string → string → string;
  path_join : string → string → string;
  path_extname : string → string
}.

(** ** The world *)

(** What a file holds: text that [JSON.parse] turns into [v], or
    [size] bytes that are not JSON (an image, a damaged config file). *)
Inductive FileData : Type :=
| Json (v : Value)
| Bytes (size : Z).

(** A row of [Images]: [id INT IDENTITY(1,1)], [image_path],
    [upload_date DATETIME DEFAULT GETDATE()]. *)
Record ImageRow : Type := mkRow {
  row_id : Z;
  image_path : string;
  upload_date : Z
}.

(** The table [dbo.Images], once created: its object id (never 0), its
    rows in stored order, and the next identity value. *)
Record Table : Type := mkTable {
  object_id : positive;
  rows : list ImageRow;
  identity : Z
}.

(** The statements the program sends through [pool.request().query]. *)
Inductive Query : Type :=
| SelectObjectId
| CreateTable
| InsertImage (path : string)
| SelectAll
| SelectPathById (id : Z)
| DeleteById (id : Z).

Inductive Console : Type := console_log_ | console_warn_ | console_error_.

(** Effects, as they are attempted.  A template literal is logged as the
    list of its pieces. *)
Inductive Event : Type :=
| EvConsole (method : Console) (args : list Value)
| EvConnect
| EvQuery (q : Query)
| EvExists (p : string)
| EvRead (p : string)
| EvWrite (p : string)
| EvUnlink (p : string)
| EvPrompt (question : string)
| EvListen (port : Value)
| EvExit (exit_code : Z).

(** The state of the process and of what it talks to.  [fault] answers
    for the environment: the error with which an effect fails, if it
    does; the program cannot change it. *)
Record World : Type := mkWorld {
  env : gmap string string;          (* process.env *)
  pkg : bool;                        (* process.pkg is set *)
  stdin : list string;               (* lines the readline interface will deliver *)
  now : Z;                           (* Date.now(), GETDATE() *)
  random : Z;                        (* Math.round(Math.random() * 1e9) *)
  fs : gmap string FileData;         (* files on disk, by path *)
  images : option Table;             (* None: the table was never created *)
  fault : Event → option Error;      (* the effect fails with this error *)
  sigint : option nat;               (* SIGINT handler installed; pending once-handlers *)
  listening : option Value;          (* port of the open HTTP listener *)
  trace : list Event                 (* effects so far, oldest first *)
}.

Definition set_stdin (l : list string) (w : World) : World :=
  mkWorld (env w) (pkg w) l (now w) (random w) (fs w) (images w) (fault w)
          (sigint w) (listening w) (trace w).
Definition set_fs (m : gmap string FileData) (w : World) : World :=
  mkWorld (env w) (pkg w) (stdin w) (now w) (random w) m (images w) (fault w)
          (sigint w) (listening w) (trace w).
Definition set_images (t : option Table) (w : World) : World :=
  mkWorld (env w) (pkg w) (stdin w) (now w) (random w) (fs w) t (fault w)
          (sigint w) (listening w) (trace w).
Definition set_sigint (k : option nat) (w : World) : World :=
  mkWorld (env w) (pkg w) (stdin w) (now w) (random w) (fs w) (images w) (fault w)
          k (listening w) (trace w).
Definition set_listening (p : option Value) (w : World) : World :=
  mkWorld (env w) (pkg w) (stdin w) (now w) (random w) (fs w) (images w) (fault w)
          (sigint w) p (trace w).
Definition record (e : Event) (w : World) : World :=
  mkWorld (env w) (pkg w) (stdin w) (now w) (random w) (fs w) (images w) (fault w)
          (sigint w) (listening w) (trace w ++ [e]).

(** ** The monad *)

(** How a computation ends: it returns, it throws, it waits for ever on
    a promise that never settles, or it ends the process. *)
Inductive Outcome (A : Type) : Type :=
| Ret (a : A)
| Throw (e : Error)
| Blocked
| Exit (exit_code : Z).
Arguments Ret {A} a.
Arguments Throw {A} e.
Arguments Blocked {A}.
Arguments Exit {A} exit_code.

Definition M (A : Type) : Type := World → Outcome A * World.

Definition ret {A : Type} (a : A) : M A := λ w, (Ret a, w).

Definition bind {A B : Type} (m : M A) (k : A → M B) : M B := λ w,
  match m w with
  | (Ret a, w') => k a w'
  | (Throw e, w') => (Throw e, w')
  | (Blocked, w') => (Blocked, w')
  | (Exit c, w') => (Exit c, w')
  end.

Declare Scope M_scope.
Delimit Scope M_scope with M.
Bind Scope M_scope with M.
Notation "x ← y ; z" := (bind y (λ x, z))
  (at level 20, y at level 100, z at level 200, only parsing) : M_scope.
Notation "x ;; z" := (bind x (λ _, z))
  (at level 100, z at level 200, only parsing, right associativity) : M_scope.
Open Scope M_scope.

Definition throw {A : Type} (e : Error) : M A := λ w, (Throw e, w).

(** [try { body } catch (err) { handler }]. *)
Definition try_catch {A : Type} (body : M A) (handler : Error → M A) : M A := λ w,
  match body w with
  | (Throw e, w') => handler e w'
  | r => r
  end.

(** Perform [e]: record it, and fail if the world says so. *)
Definition attempt (e : Event) : M unit := λ w,
  match fault w e with
  | Some err => (Throw err, record e w)
  | None => (Ret tt, record e w)
  end.

(** An effect that cannot fail. *)
Definition emit (e : Event) : M unit := λ w, (Ret tt, record e w).

Definition get {A : Type} (f : World → A) : M A := λ w, (Ret (f w), w).
Definition modify (f : World → World) : M unit := λ w, (Ret tt, f w).

(** ** Node and driver primitives *)

Definition console_log (args : list Value) : M unit := emit (EvConsole console_log_ args).
Definition console_warn (args : list Value) : M unit := emit (EvConsole console_warn_ args).
Definition console_error (args : list Value) : M unit := emit (EvConsole console_error_ args).

(** [process.env.NAME]: a string, or [undefined]. *)
Definition process_env (name : string) : M Value :=
  get (λ w, match env w !! name with Some s => VStr s | None => VUndefined end).

(** [process.exit(code)]. *)
Definition process_exit {A : Type} (exit_code : Z) : M A :=
  λ w, (Exit exit_code, record (EvExit exit_code) w).

(** [fs.existsSync(p)]: never throws. *)
Definition fs_existsSync (p : string) : M bool :=
  emit (EvExists p);;
  get (λ w, match fs w !! p with Some _ => true | None => false end).

(** [fs.readFileSync(p, 'utf8')]. *)
Definition fs_readFileSync (p : string) : M FileData :=
  attempt (EvRead p);;
  content ← get (λ w, fs w !! p);
  match content with
  | Some d => ret d
  | None => throw (ENOENT p)
  end.

(** [fs.writeFileSync(p, data)]. *)
Definition fs_writeFileSync (p : string) (data : FileData) : M unit :=
  attempt (EvWrite p);;
  modify (λ w, set_fs (<[p := data]> (fs w)) w).

(** [fs.unlinkSync(p)]. *)
Definition fs_unlinkSync (p : string) : M unit :=
  attempt (EvUnlink p);;
  content ← get (λ w, fs w !! p);
  match content with
  | Some _ => modify (λ w, set_fs (delete p (fs w)) w)
  | None => throw (ENOENT p)
  end.

(** [JSON.parse] of what was read, and [JSON.stringify(v, null, 2)] of
    what is written.  The program only writes objects of strings and
    integers, which print and parse back unchanged. *)
Definition JSON_parse (d : FileData) : M Value :=
  match d with
  | Json v => ret v
  | Bytes _ => throw (SyntaxError "Unexpected token in JSON")
  end.

Definition JSON_stringify (v : Value) : FileData := Json v.

(** [v[k]] for a key that is no built-in property: a [TypeError] on
    [null] and [undefined], [undefined] on what is not an object. *)
Definition prop (v : Value) (k : string) : M Value :=
  match v with
  | VUndefined | VNull => throw (TypeError ("Cannot read properties of null or undefined, reading " ++ k))
  | VObj fields => ret (match assoc k fields with Some x => x | None => VUndefined end)
  | _ => ret VUndefined
  end.

(** [v[k] = x] in sloppy mode: a [TypeError] on [null] and [undefined],
    ignored on primitives.  An array would carry the property without
    printing it in [JSON.stringify], which is all the program does with
    it afterwards. *)
Definition set_prop (v : Value) (k : string) (x : Value) : M Value :=
  match v with
  | VUndefined | VNull => throw (TypeError ("Cannot set properties of null or undefined, setting " ++ k))
  | VObj fields => ret (VObj (assoc_set k x fields))
  | _ => ret v
  end.

(** [prompt(question)]: the next line of standard input; the promise
    never settles when no line comes. *)
Definition prompt (question : string) : M string := λ w,
  match stdin w with
  | answer :: rest => (Ret answer, set_stdin rest (record (EvPrompt question) w))
  | [] => (Blocked, record (EvPrompt question) w)
  end.

(** [sql.connect(config)]. *)
Definition sql_connect (config : Value) : M unit := attempt EvConnect.

(** The statements below are [pool.request()...query(q)]: the statement
    is sent, and the driver or the server may refuse it for reasons of
    their own ([fault]: connection lost, parameter out of the range of
    [sql.Int], string too long for [NVARCHAR(255)]).  A statement on
    [Images] fails when the table does not exist. *)
Definition invalid_object : Error := RequestError "Invalid object name 'Images'.".

(** Run [k] on the table, or fail with [invalid_object]. *)
Definition with_table {A : Type} (k : Table → M A) : M A :=
  t ← get images;
  match t with
  | Some tbl => k tbl
  | None => throw invalid_object
  end.

(** [SELECT OBJECT_ID('dbo.Images') as TableID], read at
    [recordset[0].TableID]. *)
Definition query_object_id : M Value :=
  attempt (EvQuery SelectObjectId);;
  get (λ w, match images w with
            | Some tbl => VNum (Zpos (object_id tbl))
            | None => VNull
            end).

(** [CREATE TABLE Images (...)]: identity seed 1, no rows.  The object id
    is the server's choice; the model takes 1. *)
Definition query_create_table : M unit :=
  attempt (EvQuery CreateTable);;
  t ← get images;
  match t with
  | Some _ => throw (RequestError "There is already an object named 'Images' in the database.")
  | None => modify (set_images (Some (mkTable 1%positive [] 1)))
  end.

(** [INSERT INTO Images (image_path) VALUES (@path)]. *)
Definition query_insert (path : string) : M unit :=
  attempt (EvQuery (InsertImage path));;
  with_table (λ tbl,
    date ← get now;
    modify (set_images (Some (mkTable (object_id tbl)
                                      (rows tbl ++ [mkRow (identity tbl) path date])
                                      (identity tbl + 1))))).

(** [SELECT * FROM Images], read at [recordset]. *)
Definition query_select_all : M (list ImageRow) :=
  attempt (EvQuery SelectAll);;
  with_table (λ tbl, ret (rows tbl)).

Definition has_id (id : Z) (r : ImageRow) : bool := row_id r =? id.

(** [SELECT image_path FROM Images WHERE id = @id], read at
    [recordset]. *)
Definition query_select_path (id : Z) : M (list string) :=
  attempt (EvQuery (SelectPathById id));;
  with_table (λ tbl, ret (map image_path (List.filter (has_id id) (rows tbl)))).

(** [DELETE FROM Images WHERE id = @id]. *)
Definition query_delete (id : Z) : M unit :=
  attempt (EvQuery (DeleteById id));;
  with_table (λ tbl,
    modify (set_images (Some (mkTable (object_id tbl)
                                      (List.filter (λ r, negb (has_id id r)) (rows tbl))
                                      (identity tbl))))).

(** ** server.js *)

Section Server.
Context `{node : NodePath}.

Definition configPath : string := path_resolve baseDir "config.json".
Definition imageUploadDirectory : string := path_resolve baseDir "uploads/images".

(** [v[k]] where [v] is known not to be [null] or [undefined]. *)
Definition field (v : Value) (k : string) : Value :=
  match v with
  | VObj fields => match assoc k fields with Some x => x | None => VUndefined end
  | _ => VUndefined
  end.

(** *** checkAndCreateTable (lines 112-137) *)
Definition checkAndCreateTable : M bool :=
  try_catch
    (TableID ← query_object_id;
     (if negb (truthy TableID) then
        console_log [VStr "Creating Images table..."];;
        query_create_table;;
        console_log [VStr "✅ Images table created successfully"]
      else
        console_log [VStr "✅ Images table already exists"]);;
     ret true)
    (λ err, throw (DatabaseError ("Error checking/creating table: " ++ err_message err))).

(** *** validateDbConfig (lines 139-154) *)
Definition requiredFields : list string := ["user"; "password"; "server"; "database"].

Definition validateDbConfig (config : Value) : M bool :=
  if negb (truthy config) then
    throw (ConfigurationError "Database configuration is required")
  else
    let missingFields := List.filter (λ k, negb (truthy (field config k))) requiredFields in
    if (0 <? Z.of_nat (length missingFields)) then
      throw (ConfigurationError ("Missing required database configuration fields: "
                                 ++ String.concat ", " missingFields))
    else ret true.

(** *** getPortConfiguration (lines 156-213) *)

(** Step 2, the [try] at lines 167-175: the port to return, if any, and
    the variable [config] as the block leaves it.  [config] is assigned
    before [config.port] is read, so a parsed [null] stays in [config]
    when reading its [port] throws. *)
Definition portFromConfigFile : M (option Value * Value) :=
  found ← fs_existsSync configPath;
  if found then
    parsed ← try_catch
      (data ← fs_readFileSync configPath;
       v ← JSON_parse data;
       ret (Some v))
      (λ err, console_error [VStr "Error reading config file:"; VError err];; ret None);
    match parsed with
    | None => ret (None, VObj [])
    | Some config =>
        try_catch
          (port ← prop config "port";
           if truthy port then
             console_log [VStr "Using port "; port; VStr " from config.json"];;
             ret (Some port, config)
           else ret (None, config))
          (λ err, console_error [VStr "Error reading config file:"; VError err];;
                  ret (None, config))
    end
  else ret (None, VObj []).

(** Step 3, lines 179-208: [None] when the default is to be used. *)
Definition portFromPrompt (config : Value) : M (option Value) :=
  packaged ← get pkg;
  if packaged then
    changePort ← prompt "Would you like to set a custom port? (y/n) [default: 3001]: ";
    if String.eqb (toLowerCase changePort) "y" then
      customPort ← prompt "Enter custom port number: ";
      match parseInt customPort with
      | None =>
          console_log [VStr "⚠️ Invalid port number. Using default port 3001"];;
          ret (Some (VNum 3001))
      | Some portNumber =>
          if (portNumber <? 1) || (65535 <? portNumber) then
            console_log [VStr "⚠️ Port must be between 1 and 65535. Using default port 3001"];;
            ret (Some (VNum 3001))
          else
            config' ← set_prop config "port" (VNum portNumber);
            try_catch
              (fs_writeFileSync configPath (JSON_stringify config');;
               console_log [VStr "✅ Custom port "; VNum portNumber; VStr " saved to config.json"])
              (λ err, console_error [VStr "Could not save port configuration:";
                                     VStr (err_message err)]);;
            ret (Some (VNum portNumber))
      end
    else ret None
  else ret None.

(** Steps 2 to 4, once [PORT] gave nothing. *)
Definition portAfterEnv : M Value :=
  r ← portFromConfigFile;
  match r with
  | (Some port, _) => ret port
  | (None, config) =>
      fromPrompt ← portFromPrompt config;
      match fromPrompt with
      | Some port => ret port
      | None => console_log [VStr "Using default port 3001"];; ret (VNum 3001)
      end
  end.

Definition getPortConfiguration : M Value :=
  PORT ← process_env "PORT";
  if truthy PORT then
    console_log [VStr "Using port "; PORT; VStr " from .env file"];;
    ret (number (parseIntOf PORT))
  else portAfterEnv.
(** *** getDbConfig (lines 216-279) *)

Definition newline : string := String "010" EmptyString.

Definition getDbConfig : M Value :=
  found ← fs_existsSync configPath;
  fromFile ← (if found then
                try_catch
                  (configData ← fs_readFileSync configPath;
                   v ← JSON_parse configData;
                   ret (Some v))
                  (λ err, console_error [VStr "Error reading config file:"; VError err];;
                          ret None)
              else ret None);
  match fromFile with
  | Some config => ret config
  | None =>
      DB_USER ← process_env "DB_USER";
      DB_PASSWORD ← process_env "DB_PASSWORD";
      DB_SERVER ← process_env "DB_SERVER";
      DB_NAME ← process_env "DB_NAME";
      if truthy DB_USER && truthy DB_PASSWORD && truthy DB_SERVER && truthy DB_NAME then
        let config := VObj [("user", DB_USER); ("password", DB_PASSWORD);
                            ("server", DB_SERVER); ("database", DB_NAME)] in
        try_catch
          (fs_writeFileSync configPath (JSON_stringify config))
          (λ err, console_error [VStr "Warning: Could not save config file:";
                                 VStr (err_message err)]);;
        ret config
      else
        console_log [VStr (newline ++ "=== Database Configuration Setup ===")];;
        console_log [VStr "Please enter your SQL Server credentials:"];;
        dbUser ← try_catch (prompt "Username: ")
                   (λ _, throw (ConfigurationError "Username prompt failed or timed out"));
        dbPassword ← try_catch (prompt "Password: ")
                   (λ _, throw (ConfigurationError "Password prompt failed or timed out"));
        dbServer ← try_catch (prompt "Server (e.g. localhost\SQLEXPRESS): ")
                   (λ _, throw (ConfigurationError "Server prompt failed or timed out"));
        dbName ← try_catch (prompt "Database name: ")
                   (λ _, throw (ConfigurationError "Database name prompt failed or timed out"));
        let config := VObj [("user", VStr dbUser); ("password", VStr dbPassword);
                            ("server", VStr dbServer); ("database", VStr dbName)] in
        saveConfig ← prompt "Save this configuration for future use? (y/n): ";
        (if String.eqb (toLowerCase saveConfig) "y" then
           fs_writeFileSync configPath (JSON_stringify config);;
           console_log [VStr "Configuration saved to config.json"]
         else ret tt);;
        ret config
  end.

(** *** The upload middleware (lines 326-343) *)

(** The file part of a multipart request, as the client declares it. *)
Record Part : Type := mkPart {
  part_fieldname : string;
  part_originalname : string;
  part_mimetype : string;
  part_size : Z
}.

(** [req.file], as multer's disk storage fills it. *)
Record File : Type := mkFile {
  file_originalname : string;
  file_mimetype : string;
  file_filename : string;
  file_path : string;
  file_size : Z
}.

(** The [filename] callback of [multer.diskStorage]. *)
Definition uniqueName (originalname : string) : M string :=
  date ← get now;
  rnd ← get random;
  ret (decimal date ++ "-" ++ decimal rnd ++ path_extname originalname).

Definition allowedTypes : list string := ["image/jpeg"; "image/png"; "image/gif"].

(** [fileFilter]: the second argument it hands to [cb]. *)
Definition fileFilter (mimetype : string) : bool :=
  existsb (String.eqb mimetype) allowedTypes.

(** [limits.fileSize]. *)
Definition fileSize : Z := 5 * 1024 * 1024.

(** What a middleware hands on: [next()] with [req.file] as it stands, or
    [next(err)]. *)
Inductive Next : Type :=
| next (file : option File)
| next_err (e : Error).

(** [upload.single(fieldName)], multer 1.4.5-lts with the storage, filter
    and limit above, on a request with at most one file part.  A part
    with no file name is skipped; a part under another field name is an
    error; a part the filter refuses is drained and dropped.  An accepted
    part is streamed to disk; when the stream passes the limit multer
    removes what was written (errors of the removal are kept aside, not
    raised) and reports [LIMIT_FILE_SIZE]. *)
Definition multer_single (fieldName : string) (part : option Part) : M Next :=
  match part with
  | None => ret (next None)
  | Some p =>
      if String.eqb (part_originalname p) "" then ret (next None)
      else if negb (String.eqb (part_fieldname p) fieldName) then
        ret (next_err (MulterError "Unexpected field"))
      else if negb (fileFilter (part_mimetype p)) then ret (next None)
      else
        name ← uniqueName (part_originalname p);
        let finalPath := path_join imageUploadDirectory name in
        failed ← try_catch
          (fs_writeFileSync finalPath (Bytes (Z.min (part_size p) fileSize));; ret None)
          (λ err, ret (Some err));
        match failed with
        | Some err => ret (next_err err)
        | None =>
            if fileSize <? part_size p then
              try_catch (fs_unlinkSync finalPath) (λ _, ret tt);;
              ret (next_err (MulterError "File too large"))
            else
              ret (next (Some (mkFile (part_originalname p) (part_mimetype p)
                                      name finalPath (part_size p))))
        end
  end.

(** *** The routes (lines 348-426) *)

Record Response : Type := mkResponse { status : Z; body : Value }.

(** [res.json(v)] and [res.status(code).json(v)]. *)
Definition res_json (v : Value) : M Response := ret (mkResponse 200 v).
Definition res_status_json (code : Z) (v : Value) : M Response := ret (mkResponse code v).

(** The handler of [POST /api/upload], lines 348-366.  When
    [fs.unlinkSync] throws inside the [catch] block the handler's promise
    is rejected and nothing is sent. *)
Definition upload_handler (file : option File) : M Response :=
  match file with
  | None => res_status_json 400 (VObj [("error", VStr "No file uploaded")])
  | Some f =>
      let imagePath := "/uploads/images/" ++ file_filename f in
      try_catch
        (query_insert imagePath;;
         res_json (VObj [("message", VStr "Image uploaded successfully");
                         ("path", VStr imagePath);
                         ("filename", VStr (file_filename f))]))
        (λ err,
           fs_unlinkSync (file_path f);;
           res_status_json 500 (VObj [("error", VStr "DB insert failed");
                                      ("details", VStr (err_message err))]))
  end.

Definition row_json (r : ImageRow) : Value :=
  VObj [("id", VNum (row_id r)); ("image_path", VStr (image_path r));
        ("upload_date", VNum (upload_date r))].

(** The handler of [GET /api/images], lines 369-376. *)
Definition images_handler : M Response :=
  try_catch
    (recordset ← query_select_all;
     res_json (VArr (map row_json recordset)))
    (λ err, res_status_json 500 (VObj [("error", VStr "DB fetch failed");
                                       ("details", VStr (err_message err))])).

(** The path the delete handler removes for a stored [image_path]. *)
Definition fullPath (imagePath : string) : string :=
  let relativePath := if startsWithSlash imagePath then substring1 imagePath else imagePath in
  path_resolve baseDir relativePath.

(** The handler of [DELETE /api/images/:id], lines 379-415. *)
Definition delete_handler (id_param : string) : M Response :=
  let id := parseInt id_param in
  match id with
  | None => res_status_json 400 (VObj [("error", VStr "Invalid ID format")])
  | Some id =>
      try_catch
        (recordset ← query_select_path id;
         match recordset with
         | [] => res_status_json 404 (VObj [("error", VStr "Image not found")])
         | imagePath :: _ =>
             found ← fs_existsSync (fullPath imagePath);
             (if found then fs_unlinkSync (fullPath imagePath)
              else console_warn [VStr "File not found: "; VStr (fullPath imagePath)]);;
             query_delete id;;
             res_json (VObj [("message", VStr "Image deleted")])
         end)
        (λ err, res_status_json 500 (VObj [("error", VStr "Delete failed");
                                           ("details", VStr (err_message err))]))
  end.

(** The error middleware, lines 423-426. *)
Definition error_middleware (err : Error) : M Response :=
  console_error [VStr "Unhandled error:"; VError err];;
  res_status_json 500 (VObj [("error", VStr (err_message err))]).

(** [POST /api/upload]: the multer middleware, then the handler, or the
    error middleware when multer calls [next(err)]. *)
Definition post_api_upload (part : option Part) : M Response :=
  n ← multer_single "image" part;
  match n with
  | next file => upload_handler file
  | next_err err => error_middleware err
  end.

(** *** Signals (lines 429-438) *)

(** One SIGINT.  With the handler installed it logs and arms a
    [process.once] handler; an armed handler, called after it, exits with
    code 1.  Without it the signal ends the process (130 to a shell). *)
Definition on_SIGINT : M unit :=
  installed ← get sigint;
  match installed with
  | None => process_exit 130
  | Some armed =>
      console_log [VStr (newline ++ "🛑 Shutting down server gracefully...")];;
      console_log [VStr (newline ++ "🛑 Press Ctrl+C again to exit immediately.")];;
      console_log [VStr "Otherwise, the server will keep running..."];;
      modify (set_sigint (Some (S armed)));;
      match armed with
      | O => ret tt
      | S _ =>
          console_log [VStr (newline ++ "⚠️ Forcing immediate shutdown...")];;
          process_exit 1
      end
  end.

(** *** initializeServer (lines 282-472) *)

(** [{...dbConfig, pool: {...}, options: {...}}]. *)
Definition fullDbConfig (dbConfig : Value) : Value :=
  let spread := match dbConfig with VObj fields => fields | _ => [] end in
  VObj (assoc_set "options"
          (VObj [("encrypt", VBool false); ("trustServerCertificate", VBool true);
                 ("enableArithAbort", VBool true)])
          (assoc_set "pool"
             (VObj [("max", VNum 10); ("min", VNum 0); ("idleTimeoutMillis", VNum 30000)])
             spread)).

(** [app.listen(port, cb)] and [server.on('error', ...)]: a listener that
    cannot be opened reports through the error event, whose [code] is
    read here from the error's name. *)
Definition app_listen (port : Value) : M unit := λ w,
  match fault w (EvListen port) with
  | Some err =>
      (if String.eqb (err_name err) "EADDRINUSE"
       then console_error [VStr "Port "; port; VStr " is already in use"]
       else console_error [VStr "Server error:"; VError err]) (record (EvListen port) w)
  | None =>
      (modify (set_listening (Some port));;
       console_log [VStr "🚀 Server listening at http://localhost:"; port];;
       console_log [VStr "📁 Upload directory: "; VStr imageUploadDirectory])
        (record (EvListen port) w)
  end.

(** The [catch] block at lines 460-471 reads the function-level
    [poolConnection], which is still [null] (the [try] block declares its
    own), so there is never a pool to close. *)
Definition initializeServer : M unit :=
  try_catch
    (dbConfig ← getDbConfig;
     validateDbConfig dbConfig;;
     console_log [VStr "Connecting to database..."];;
     sql_connect (fullDbConfig dbConfig);;
     console_log [VStr "✅ Connected to SQL Server"];;
     checkAndCreateTable;;
     modify (set_sigint (Some O));;
     port ← getPortConfiguration;
     app_listen port)
    (λ err, console_error [VStr "❌ Server initialization failed:"]).

(** Lines 475-479: the start of the program. *)
Definition main : M unit :=
  try_catch initializeServer
    (λ err,
       console_error [VStr "Fatal error during initialization:"];;
       console_log [VStr "Process will remain active for debugging. Close manually when ready."]).

(** *** Vocabulary of the statements *)

(** [PORT] as the test at line 158 sees it: set, and not to the empty
    string. *)
Definition envPort (w : World) : option string :=
  match env w !! "PORT" with
  | Some s => if String.eqb s "" then None else Some s
  | None => None
  end.

(** The [port] field of the persisted config file: the file is there,
    can be read, parses to an object, and the field holds a truthy value
    (every port of 1..65535 is one; 0, [null] and the empty string are
    not, and the code goes on as if the field were missing). *)
Definition filePort (w : World) : option Value :=
  match fs w !! configPath, fault w (EvRead configPath) with
  | Some (Json (VObj fields)), None =>
      match assoc "port" fields with
      | Some port => if truthy port then Some port else None
      | None => None
      end
  | _, _ => None
  end.

(** Nothing comes from the prompt: the process is not the packaged
    executable, or the operator declines, or what is entered is not an
    integer of 1..65535. *)
Definition no_override (w : World) : Prop :=
  pkg w = false
  ∨ (∃ a rest, stdin w = a :: rest ∧ toLowerCase a ≠ "y")
  ∨ (∃ a b rest, stdin w = a :: b :: rest ∧ toLowerCase a = "y" ∧
                 match parseInt b with
                 | Some n => n < 1 ∨ 65535 < n
                 | None => True
                 end).

(** A row as the upload pipeline makes it, for the file name [name]:
    the file is where multer writes it, its destination joined with the
    name ([req.file.path], lines 326-332), and the row stores the path of
    line 351. *)
Definition uploadedFile (name : string) : string := path_join imageUploadDirectory name.
Definition storedPath (name : string) : string := "/uploads/images/" ++ name.

(** Node's [path.resolve] and [path.join] agree on [name]: the stored
    path, taken relative to the working directory, is the file multer
    wrote.  This holds of Node's functions for a name without
    separators, which the generated names are. *)
Definition paths_agree (name : string) : Prop :=
  path_resolve baseDir ("uploads/images/" ++ name) = uploadedFile name.

(** The three ways the start can fail before the table is looked at:
    resolving the configuration throws, validating it throws, or the
    connection is refused. *)
Definition startup_fails (w : World) : Prop :=
  (∃ e w1, getDbConfig w = (Throw e, w1))
  ∨ (∃ cfg w1 e w2, getDbConfig w = (Ret cfg, w1) ∧ validateDbConfig cfg w1 = (Throw e, w2))
  ∨ (∃ cfg w1 e, getDbConfig w = (Ret cfg, w1) ∧
                 validateDbConfig cfg w1 = (Ret true, w1) ∧
                 fault w EvConnect = Some e).

(** An event that ends the process or opens the listener. *)
Definition exits_or_listens (e : Event) : bool :=
  match e with
  | EvExit _ | EvListen _ => true
  | _ => false
  end.

(** A computation that, from any world, only appends events, none of
    which ends the process or opens the listener, and leaves the
    listener, the signal handler and the oracle as they were. *)
Definition quiet {A : Type} (m : M A) : Prop :=
  ∀ w, ∃ evs,
    trace (snd (m w)) = (trace w ++ evs)%list ∧
    forallb (λ e, negb (exits_or_listens e)) evs = true ∧
    listening (snd (m w)) = listening w ∧
    sigint (snd (m w)) = sigint w ∧
    fault (snd (m w)) = fault w.

End Server.

(** ** Worlds used as examples *)

(** A stand-in for Node's path module on POSIX paths that need no
    normalising, and a working directory. *)
Fixpoint lastDot (s : string) (seen : option string) : option string :=
  match s with
  | String c rest =>
      lastDot rest (if (code c =? 46) then Some s else
                    if (code c =? 47) then None else seen)
  | EmptyString => seen
  end.

Definition demoPath : NodePath := {|
  baseDir := "/srv/app";
  path_resolve := λ base rel, if startsWithSlash rel then rel else base ++ "/" ++ rel;
  path_join := λ dir name, dir ++ "/" ++ name;
  path_extname := λ name, default "" (lastDot name None)
|}.

Definition no_fault : Event → option Error := λ _, None.

Definition demoConfig : Value :=
  VObj [("user", VStr "sa"); ("password", VStr "secret");
        ("server", VStr "localhost\SQLEXPRESS"); ("database", VStr "ImageUploader")].

(** Three stored images; the file of the second is no longer on
    disk. *)
Definition demoTable : Table :=
  mkTable 1%positive
    [mkRow 1 "/uploads/images/1747221180043-1.jpg" 1747221180043;
     mkRow 7 "/uploads/images/1747221180077-7.gif" 1747221180077;
     mkRow 12 "/uploads/images/1747221180099-2.png" 1747221180099]
    13.

Definition demoWorld : World := {|
  env := ∅;
  pkg := false;
  stdin := [];
  now := 1747221190000;
  random := 123456789;
  fs := {[ "/srv/app/config.json" := Json demoConfig;
           "/srv/app/uploads/images/1747221180043-1.jpg" := Bytes 2048;
           "/srv/app/uploads/images/1747221180099-2.png" := Bytes 4096 ]};
  images := Some demoTable;
  fault := no_fault;
  sigint := Some O;
  listening := Some (VNum 3001);
  trace := []
|}.

(** The same world with another oracle. *)
Definition with_fault (f : Event → option Error) (w : World) : World :=
  mkWorld (env w) (pkg w) (stdin w) (now w) (random w) (fs w) (images w) f
          (sigint w) (listening w) (trace w).

(** The same world before the program starts: nothing listens, no
    handler is installed. *)
Definition at_start (w : World) : World :=
  mkWorld (env w) (pkg w) (stdin w) (now w) (random w) (fs w) (images w) (fault w)
          None None (trace w).

(** The same world with other environment variables. *)
Definition with_env (e : gmap string string) (w : World) : World :=
  mkWorld e (pkg w) (stdin w) (now w) (random w) (fs w) (images w) (fault w)
          (sigint w) (listening w) (trace w).

(** Upload requests. *)
Definition jpegPart : Part := mkPart "image" "cat.jpg" "image/jpeg" 12345.
Definition hugePart : Part := mkPart "image" "poster.png" "image/png" (5 * 1024 * 1024 + 1).
Definition hugePdfPart : Part := mkPart "image" "scan.pdf" "application/pdf" (6 * 1024 * 1024).
Definition namelessPart : Part := mkPart "image" "" "image/png" 0.

(** The store refuses the insert and the disk refuses the removal (a
    file held open on Windows, a directory made read-only). *)
Definition EPERM : Error := mkError "Error" "EPERM: operation not permitted, unlink".

Definition insertAndUnlinkFail : Event → option Error := λ e,
  match e with
  | EvQuery (InsertImage _) => Some (RequestError "Connection is closed.")
  | EvUnlink _ => Some EPERM
  | _ => None
  end.

(** The server is not reachable. *)
Definition connectFails : Event → option Error := λ e,
  match e with
  | EvConnect => Some (mkError "ConnectionError" "Failed to connect to localhost\SQLEXPRESS")
  | _ => None
  end.

(** The config file holds [{ "port": 5000 }] next to the credentials. *)
Definition withPortFile (w : World) : World :=
  set_fs (<["/srv/app/config.json" :=
             Json (VObj [("user", VStr "sa"); ("password", VStr "secret");
                         ("server", VStr "localhost\SQLEXPRESS");
                         ("database", VStr "ImageUploader"); ("port", VNum 5000)])]> (fs w)) w.

(** The config file was cut short by a crash. *)
Definition withDamagedFile (w : World) : World :=
  set_fs (<["/srv/app/config.json" := Bytes 17]> (fs w)) w.

(** [PORT=4000] in the environment, next to a config file that says
    5000. *)
Definition envPortWorld : World :=
  with_env {[ "PORT" := "4000" ]} (withPortFile demoWorld).

(** The four database variables in the environment, next to a damaged
    config file. *)
Definition damagedWorld : World :=
  with_env {[ "DB_USER" := "sa"; "DB_PASSWORD" := "secret";
              "DB_SERVER" := "localhost\SQLEXPRESS"; "DB_NAME" := "ImageUploader" ]}
    (withDamagedFile demoWorld).

(** A database in which [Images] was never created. *)
Definition freshWorld : World := set_images None (at_start demoWorld).

(** ** Vocabulary of the properties beyond the claims *)

(** The identity discipline of [Images] ([id INT PRIMARY KEY
    IDENTITY(1,1)]): identifiers are pairwise distinct and below the next
    identity value. *)
Definition table_ok (t : Table) : Prop :=
  List.NoDup (map row_id (rows t)) ∧ ∀ r, In r (rows t) → row_id r < identity t.

Definition store_ok (w : World) : Prop :=
  ∀ t, images w = Some t → table_ok t.

(** A file part the upload middleware lets through: under the field
    [image], with a file name, of an allowed type, within the limit. *)
Definition accepted (p : Part) : Prop :=
  part_fieldname p = "image" ∧ part_originalname p ≠ "" ∧
  fileFilter (part_mimetype p) = true ∧ part_size p <= fileSize.

(** The four database variables are all set and non-empty (line 228). *)
Definition envComplete (w : World) : bool :=
  let var name := match env w !! name with Some s => negb (String.eqb s "") | None => false end in
  var "DB_USER" && var "DB_PASSWORD" && var "DB_SERVER" && var "DB_NAME".

(** A computation that never ends the process. *)
Definition no_exit {A : Type} (m : M A) : Prop :=
  ∀ w c, fst (m w) ≠ Exit c.

(** Only the insert is refused. *)
Definition insertFails : Event → option Error := λ e,
  match e with
  | EvQuery (InsertImage _) => Some (RequestError "Connection is closed.")
  | _ => None
  end.

(** Only the removal of files is refused. *)
Definition unlinkFails : Event → option Error := λ e,
  match e with
  | EvUnlink _ => Some EPERM
  | _ => None
  end.

(** Only the delete statement is refused. *)
Definition deleteRowFails : Event → option Error := λ e,
  match e with
  | EvQuery (DeleteById _) => Some (RequestError "Connection is closed.")
  | _ => None
  end.

(** Every statement is refused. *)
Definition storeDown : Event → option Error := λ e,
  match e with
  | EvQuery _ => Some (RequestError "Connection is closed.")
  | _ => None
  end.

(** The same world with other lines waiting on standard input, and as
    the packaged executable. *)
Definition with_stdin (l : list string) (w : World) : World := set_stdin l w.
Definition packaged (w : World) : World :=
  mkWorld (env w) true (stdin w) (now w) (random w) (fs w) (images w) (fault w)
          (sigint w) (listening w) (trace w).

(** No config file. *)
Definition withoutConfigFile (w : World) : World :=
  set_fs (delete "/srv/app/config.json" (fs w)) w.

(** No config file; the four database variables in the environment. *)
Definition envOnlyWorld : World :=
  with_env {[ "DB_USER" := "sa"; "DB_PASSWORD" := "secret";
              "DB_SERVER" := "localhost\SQLEXPRESS"; "DB_NAME" := "ImageUploader" ]}
    (withoutConfigFile demoWorld).

(** No config file, no variables; an operator answers the five
    questions and asks to save. *)
Definition promptWorld : World :=
  with_stdin ["sa"; "secret"; "localhost\SQLEXPRESS"; "ImageUploader"; "Y"]
    (withoutConfigFile demoWorld).

(** The packaged executable; the operator asks for port 8080. *)
Definition portPromptWorld : World := packaged (with_stdin ["y"; "8080"] demoWorld).
Definition portPromptNoFileWorld : World :=
  packaged (with_stdin ["y"; "8080"] (withoutConfigFile demoWorld)).


(** The port [getPortConfiguration] takes from the fields of the config
    file when nothing overrides it. *)
Definition portOf (fields : list (string * Value)) : Value :=
  match assoc "port" fields with
  | Some port => if truthy port then port else VNum 3001
  | None => VNum 3001
  end.


(** The table after the bootstrap. *)
Definition bootstrapped (w : World) : Table :=
  match images w with
  | Some t => t
  | None => mkTable 1%positive [] 1
  end.

(** * Properties *)

(** Symbolic execution: unfold the monad and the primitives, reduce the
    projections of updated worlds, use what the hypotheses say about the
    world, and split on what they leave open. *)
Ltac unfold_model :=
  cbv beta iota zeta delta
    [bind ret throw try_catch attempt emit get modify record
     set_fs set_images set_stdin set_sigint set_listening
     res_json res_status_json
     console_log console_warn console_error process_env process_exit
     fs_existsSync fs_readFileSync fs_writeFileSync fs_unlinkSync
     JSON_parse JSON_stringify prop set_prop prompt sql_connect with_table
     query_object_id query_create_table query_insert query_select_all
     query_select_path query_delete] in *;
  cbn [env pkg stdin now random fs images fault sigint listening trace
       fst snd status body] in *.

Ltac use_hyps :=
  repeat match goal with
         | E : ?l = _ |- context [match ?l with _ => _ end] => rewrite E
         | E : ?l = _, E' : context [match ?l with _ => _ end] |- _ => rewrite E in E'
         end.

Ltac exec := unfold_model; repeat (progress use_hyps; unfold_model).

Ltac split_match :=
  match goal with
  | |- context [match ?x with _ => _ end] =>
      lazymatch x with
      | context [match _ with _ => _ end] => fail
      | _ => destruct x eqn:?
      end
  end.

Ltac split_hyp :=
  match goal with
  | E : context [match ?x with _ => _ end] |- _ =>
      lazymatch x with
      | context [match _ with _ => _ end] => fail
      | _ => destruct x eqn:?
      end
  end.

(** The events a run appended, read off a trace built by [record]. *)
Ltac trace_tail := rewrite <- ?app_assoc; cbn [app]; reflexivity.

(** ** The model on the inputs of the test suite *)

Example parseInt_digits : parseInt "12" = Some 12.
Proof. reflexivity. Qed.
Example parseInt_digits_then_letters : parseInt "12abc" = Some 12.
Proof. reflexivity. Qed.
Example parseInt_blank_and_sign : parseInt "  -5" = Some (-5).
Proof. reflexivity. Qed.
Example parseInt_hex : parseInt "0x1A" = Some 26.
Proof. reflexivity. Qed.
Example parseInt_invalid : parseInt "invalid" = None.
Proof. reflexivity. Qed.
Example parseInt_empty : parseInt "" = None.
Proof. reflexivity. Qed.
Example parseInt_bare_prefix : parseInt "0x" = None.
Proof. reflexivity. Qed.
Example decimal_timestamp : decimal 1747221180043 = "1747221180043".
Proof. reflexivity. Qed.
Example toLowerCase_Y : toLowerCase "Y" = "y".
Proof. reflexivity. Qed.

(** [validateDbConfig], as the test suite calls it. *)
Example validateDbConfig_valid :
  fst (validateDbConfig demoConfig demoWorld) = Ret true.
Proof. reflexivity. Qed.

Example validateDbConfig_missing_field :
  fst (validateDbConfig
         (VObj [("user", VStr "test"); ("password", VStr "test"); ("server", VStr "localhost")])
         demoWorld)
  = Throw (ConfigurationError "Missing required database configuration fields: database").
Proof. reflexivity. Qed.

Example validateDbConfig_null :
  fst (validateDbConfig VNull demoWorld)
  = Throw (ConfigurationError "Database configuration is required").
Proof. reflexivity. Qed.

(** The listing returns the rows as stored. *)
Example images_handler_demo :
  fst (images_handler demoWorld)
  = Ret (mkResponse 200 (VArr (map row_json (rows demoTable)))).
Proof. reflexivity. Qed.

(** A second SIGINT, and only a second one, exits with code 1. *)
Example second_SIGINT_exits :
  fst (on_SIGINT demoWorld) = Ret tt ∧
  fst (on_SIGINT (snd (on_SIGINT demoWorld))) = Exit 1.
Proof. split; reflexivity. Qed.

Section Properties.
Context `{node : NodePath}.

(** *** Rows and identifiers *)

Lemma filter_has_id_none (id : Z) (rs : list ImageRow) :
  (∀ r, In r rs → row_id r ≠ id) → List.filter (has_id id) rs = [].
Proof.
  induction rs as [|r rs IH]; intros Hno; [reflexivity|].
  cbn. unfold has_id at 1.
  destruct (Z.eqb_spec (row_id r) id) as [Heq|Hne].
  - exfalso. apply (Hno r); [left; reflexivity | exact Heq].
  - apply IH. intros r' Hin. apply Hno. right. exact Hin.
Qed.


(** *** Listing *)

(** A listing that answers 200 returns the rows of the table, in stored
    order. *)
Lemma images_handler_rows (w w2 : World) (resp : Response) :
  images_handler w = (Ret resp, w2) →
  status resp = 200 →
  ∃ tbl, images w = Some tbl ∧ body resp = VArr (map row_json (rows tbl)).
Proof.
  intros Hrun Hok. unfold images_handler in Hrun. exec.
  repeat (split_hyp; exec; simplify_eq/=); try (cbn in Hok; lia).
  eexists. split; reflexivity.
Qed.

(** *** Deletion *)

(** C2, as the code has it.  The identifier is validated by [parseInt]
    alone: when [parseInt] gives [NaN] the handler answers 400 "Invalid ID
    format" and leaves the world as it found it (no query, no file access,
    nothing logged); when [parseInt] gives any integer, positive or not,
    the handler is not stopped by validation: its first effect is the
    lookup query and its answer is never 400. *)
Theorem delete_id_validation :
  (∀ (w : World) (id_param : string),
     parseInt id_param = None →
     delete_handler id_param w
     = (Ret (mkResponse 400 (VObj [("error", VStr "Invalid ID format")])), w))
  ∧
  (∀ (w : World) (id_param : string) (id : Z),
     parseInt id_param = Some id →
     ∃ r w' evs,
       delete_handler id_param w = (r, w') ∧
       trace w' = (trace w ++ EvQuery (SelectPathById id) :: evs)%list ∧
       ∀ resp, r = Ret resp → status resp ≠ 400).
Proof.
  split.
  - intros w id_param Hnan. unfold delete_handler. rewrite Hnan. reflexivity.
  - intros w id_param id Hid. unfold delete_handler. rewrite Hid.
    exec. repeat (split_match; exec).
    all: eexists _, _, _; split; [reflexivity|]; split; [trace_tail|].
    all: intros resp Hresp; simplify_eq; cbn; lia.
Qed.

(** C8.  When no row carries the identifier, the handler changes neither
    the table nor the files, whatever the store does; and when the lookup
    itself goes through, it answers 404 "Image not found" having done
    nothing but that lookup. *)
Theorem delete_missing_id_not_found
    (w : World) (id_param : string) (id : Z) (tbl : Table) :
  parseInt id_param = Some id →
  images w = Some tbl →
  (∀ r, In r (rows tbl) → row_id r ≠ id) →
  (images (snd (delete_handler id_param w)) = images w ∧
   fs (snd (delete_handler id_param w)) = fs w) ∧
  (fault w (EvQuery (SelectPathById id)) = None →
   delete_handler id_param w
   = (Ret (mkResponse 404 (VObj [("error", VStr "Image not found")])),
      record (EvQuery (SelectPathById id)) w)).
Proof.
  intros Hid Htbl Hnone. unfold delete_handler. rewrite Hid. split.
  - destruct (fault w (EvQuery (SelectPathById id))) eqn:Hsel; exec;
      rewrite ?(filter_has_id_none _ _ Hnone); split; reflexivity.
  - intros Hok. exec. rewrite (filter_has_id_none _ _ Hnone). reflexivity.
Qed.



(** *** Schema bootstrap *)

(** C9.  When the store answers, the bootstrap returns [true] and leaves
    the table in place; it sends [CREATE TABLE] only when the existence
    query found nothing, and a second run right after the first sends the
    existence query alone and changes nothing. *)
Theorem checkAndCreateTable_idempotent (w : World) :
  fault w (EvQuery SelectObjectId) = None →
  fault w (EvQuery CreateTable) = None →
  ∃ w1 w2 tbl,
    checkAndCreateTable w = (Ret true, w1) ∧
    checkAndCreateTable w1 = (Ret true, w2) ∧
    images w1 = Some tbl ∧
    images w2 = Some tbl ∧
    (images w = None →
     trace w1 = (trace w ++
                 [EvQuery SelectObjectId;
                  EvConsole console_log_ [VStr "Creating Images table..."];
                  EvQuery CreateTable;
                  EvConsole console_log_ [VStr "✅ Images table created successfully"]])%list) ∧
    (∀ t, images w = Some t →
          tbl = t ∧
          trace w1 = (trace w ++
                      [EvQuery SelectObjectId;
                       EvConsole console_log_ [VStr "✅ Images table already exists"]])%list) ∧
    trace w2 = (trace w1 ++
                [EvQuery SelectObjectId;
                 EvConsole console_log_ [VStr "✅ Images table already exists"]])%list.
Proof.
  intros Hsel Hcreate. unfold checkAndCreateTable.
  destruct (images w) as [t|] eqn:Htbl.
  - eexists _, _, t.
    split; [exec; cbn [truthy negb]; exec; reflexivity|].
    split; [exec; cbn [truthy negb]; exec; reflexivity|].
    cbn [images trace]. repeat split; try congruence; try trace_tail.
  - eexists _, _, _.
    split; [exec; cbn [truthy negb]; exec; reflexivity|].
    split; [exec; cbn [truthy negb]; exec; reflexivity|].
    cbn [images trace]. repeat split; try congruence; try trace_tail.
Qed.

(** *** Upload *)

(** C3, as the code has it.  An upload answered with 200 came with a file
    part; the file is on disk under the generated name, one row was
    appended with the next identity value and the stored path, and the
    body of the answer is exactly [message], [path] and [filename]: the
    identity value given to the row is not part of it. *)
Theorem upload_success_response
    (w w' : World) (part : option Part) (resp : Response) :
  post_api_upload part w = (Ret resp, w') →
  status resp = 200 →
  ∃ p tbl,
    let name := decimal (now w) ++ "-" ++ decimal (random w)
                ++ path_extname (part_originalname p) in
    part = Some p ∧
    images w = Some tbl ∧
    body resp = VObj [("message", VStr "Image uploaded successfully");
                      ("path", VStr ("/uploads/images/" ++ name));
                      ("filename", VStr name)] ∧
    images w' = Some (mkTable (object_id tbl)
                        (rows tbl ++ [mkRow (identity tbl) ("/uploads/images/" ++ name) (now w)])
                        (identity tbl + 1)) ∧
    fs w' !! path_join imageUploadDirectory name = Some (Bytes (part_size p)).
Proof.
  intros Hrun Hok.
  unfold post_api_upload, multer_single, upload_handler, error_middleware, uniqueName in Hrun.
  destruct part as [p|]; exec.
  2:{ simplify_eq. }
  repeat (split_hyp; exec; simplify_eq/=).
  all: try (cbn in Hok; lia).
  exists p. eexists. cbn zeta. repeat split; try reflexivity.
  rewrite lookup_insert_eq. f_equal. f_equal.
  apply Z.min_l. apply Z.ltb_ge. assumption.
Qed.

(** [fileFilter] lets through the three types of line 335 and no
    other. *)
Lemma fileFilter_allowed (mimetype : string) :
  fileFilter mimetype = true
  ↔ mimetype = "image/jpeg" ∨ mimetype = "image/png" ∨ mimetype = "image/gif".
Proof.
  unfold fileFilter, allowedTypes. cbn [existsb].
  rewrite !orb_true_iff, !String.eqb_eq. intuition discriminate.
Qed.

(** C6, as the code has it.  A request without a file (no file part, or
    a part without a file name), and a file part under the field [image]
    whose declared type is none of [image/jpeg], [image/png] and
    [image/gif], whatever its size, are answered 400 "No file uploaded"
    with the world untouched: nothing written, nothing asked of the
    store.  A file part under the field [image], with a file name and one
    of the three types, that is larger than 5 MiB is answered by the
    error middleware, with 500, before any statement is sent; when the
    disk takes the write, the error is multer's "File too large", and
    when it also lets the partial file go, no file is left. *)
Theorem upload_rejections :
  (∀ (w : World),
     post_api_upload None w
     = (Ret (mkResponse 400 (VObj [("error", VStr "No file uploaded")])), w))
  ∧
  (∀ (w : World) (p : Part),
     part_originalname p = "" →
     post_api_upload (Some p) w
     = (Ret (mkResponse 400 (VObj [("error", VStr "No file uploaded")])), w))
  ∧
  (∀ (w : World) (p : Part),
     part_fieldname p = "image" →
     part_mimetype p ≠ "image/jpeg" →
     part_mimetype p ≠ "image/png" →
     part_mimetype p ≠ "image/gif" →
     post_api_upload (Some p) w
     = (Ret (mkResponse 400 (VObj [("error", VStr "No file uploaded")])), w))
  ∧
  (∀ (w : World) (p : Part),
     part_fieldname p = "image" →
     part_originalname p ≠ "" →
     part_mimetype p = "image/jpeg" ∨ part_mimetype p = "image/png"
       ∨ part_mimetype p = "image/gif" →
     5 * 1024 * 1024 < part_size p →
     let finalPath :=
       path_join imageUploadDirectory
         (decimal (now w) ++ "-" ++ decimal (random w) ++ path_extname (part_originalname p)) in
     ∃ err w' evs,
       post_api_upload (Some p) w
       = (Ret (mkResponse 500 (VObj [("error", VStr (err_message err))])), w') ∧
       images w' = images w ∧
       trace w' = (trace w ++ evs)%list ∧
       (∀ q, ¬ In (EvQuery q) evs) ∧
       (fault w (EvWrite finalPath) = None → err = MulterError "File too large") ∧
       (fault w (EvWrite finalPath) = None → fault w (EvUnlink finalPath) = None →
        fs w' !! finalPath = None)).
Proof.
  split; [|split; [|split]].
  - intros w. reflexivity.
  - intros w p Hname.
    unfold post_api_upload, multer_single, upload_handler. exec.
    rewrite Hname. reflexivity.
  - intros w p Hfield Hjpeg Hpng Hgif.
    assert (Htype : fileFilter (part_mimetype p) = false).
    { destruct (fileFilter (part_mimetype p)) eqn:E; [|reflexivity].
      apply fileFilter_allowed in E. intuition congruence. }
    unfold post_api_upload, multer_single, upload_handler. exec.
    rewrite Hfield, Htype. cbn.
    destruct (String.eqb (part_originalname p) ""); reflexivity.
  - intros w p Hfield Hname Hallowed Hsize finalPath. subst finalPath.
    assert (Htype : fileFilter (part_mimetype p) = true)
      by (apply fileFilter_allowed; exact Hallowed).
    clear Hallowed.
    unfold post_api_upload, multer_single, upload_handler, error_middleware, uniqueName.
    exec. rewrite Hfield, Htype. cbn [String.eqb Ascii.eqb Bool.eqb negb].
    apply String.eqb_neq in Hname. rewrite Hname.
    change (5 * 1024 * 1024) with fileSize in Hsize.
    apply Z.ltb_lt in Hsize.
    repeat (split_match; exec; rewrite ?Hsize; exec).
    all: eexists _, _, _; split; [reflexivity|]; split; [reflexivity|].
    all: split; [trace_tail|].
    all: split; [cbn; intros q Hq; intuition discriminate|].
    all: split; [try congruence; reflexivity|].
    all: try congruence.
    all: intros _ _; cbn; rewrite ?lookup_delete_eq; try reflexivity.
    all: rewrite lookup_insert_eq in *; congruence.
Qed.

(** The rollback of the upload handler when the insert fails: with the
    file in place and [unlinkSync] going through, the file is removed
    and the answer is 500 "DB insert failed"; when [unlinkSync] throws,
    the handler throws with it: nothing is logged, nothing is answered,
    and the file stays. *)
Lemma upload_handler_rollback (w : World) (f : File) (e : Error) :
  fault w (EvQuery (InsertImage ("/uploads/images/" ++ file_filename f))) = Some e →
  (∀ d, fs w !! file_path f = Some d →
        fault w (EvUnlink (file_path f)) = None →
        ∃ w', upload_handler (Some f) w
              = (Ret (mkResponse 500 (VObj [("error", VStr "DB insert failed");
                                            ("details", VStr (err_message e))])), w') ∧
              fs w' = delete (file_path f) (fs w) ∧
              images w' = images w)
  ∧
  (∀ e', fault w (EvUnlink (file_path f)) = Some e' →
         upload_handler (Some f) w
         = (Throw e',
            record (EvUnlink (file_path f))
              (record (EvQuery (InsertImage ("/uploads/images/" ++ file_filename f))) w))).
Proof.
  intros Hins. split.
  - intros d Hfile Hunlink. unfold upload_handler. exec.
    eexists. repeat split.
  - intros e' Hunlink. unfold upload_handler. exec. reflexivity.
Qed.

(** *** Port resolution *)

(** [PORT] unset or empty is falsy at line 158. *)
Lemma envPort_none_falsy (w : World) :
  envPort w = None →
  truthy (match env w !! "PORT" with Some s => VStr s | None => VUndefined end) = false.
Proof.
  unfold envPort. destruct (env w !! "PORT") as [s|]; [|reflexivity].
  cbn. destruct (String.eqb s ""); [reflexivity | discriminate].
Qed.

(** Step 2 with no usable port in the file: nothing is returned, and the
    prompt's inputs are as they were. *)
Lemma portFromConfigFile_without_port (w : World) :
  filePort w = None →
  ∃ config w1,
    portFromConfigFile w = (Ret (None, config), w1) ∧
    pkg w1 = pkg w ∧ stdin w1 = stdin w.
Proof.
  unfold filePort, portFromConfigFile. intros Hfile.
  destruct (fs w !! configPath) as [d|] eqn:Hfs; exec.
  2:{ eexists _, _. repeat split. }
  destruct (fault w (EvRead configPath)) as [e|] eqn:Hread; exec.
  { eexists _, _. repeat split. }
  destruct d as [v|n]; exec.
  2:{ eexists _, _. repeat split. }
  destruct v; exec; try (eexists _, _; repeat split; fail).
  destruct (assoc "port" fields) as [port|]; exec.
  - destruct (truthy port); [discriminate|]. exec. eexists _, _. repeat split.
  - cbn [truthy]. exec. eexists _, _. repeat split.
Qed.

(** Step 3 when nothing comes from the prompt. *)
Lemma portFromPrompt_no_override (w : World) (config : Value) :
  no_override w →
  ∃ w1, portFromPrompt config w = (Ret None, w1)
        ∨ portFromPrompt config w = (Ret (Some (VNum 3001)), w1).
Proof.
  unfold no_override, portFromPrompt.
  intros [Hpkg | [(a & rest & Hin & Hno) | (a & b & rest & Hin & Hyes & Hbad)]]; exec.
  - eexists. left. reflexivity.
  - apply String.eqb_neq in Hno.
    destruct (pkg w); exec; rewrite ?Hno; eexists; left; reflexivity.
  - apply String.eqb_eq in Hyes.
    destruct (pkg w); exec; rewrite ?Hyes; exec; [|eexists; left; reflexivity].
    destruct (parseInt b) as [n|]; exec; [|eexists; right; reflexivity].
    assert (Hrange : (n <? 1) || (65535 <? n) = true).
    { apply orb_true_iff. destruct Hbad; [left; apply Z.ltb_lt | right; apply Z.ltb_lt]; lia. }
    rewrite Hrange. exec. eexists. right. reflexivity.
Qed.

(** C5.  With [PORT] set (to a non-empty string) the port is the integer
    [parseInt] reads from it, whatever the config file holds and whatever
    waits at the prompt; otherwise, with a port field in the config file,
    it is that value; otherwise, with nothing coming from the prompt, it
    is 3001. *)
Theorem port_resolution_cascade (w : World) :
  (∀ s, envPort w = Some s →
        fst (getPortConfiguration w) = Ret (number (parseInt s)))
  ∧
  (∀ port, envPort w = None → filePort w = Some port →
           fst (getPortConfiguration w) = Ret port)
  ∧
  (envPort w = None → filePort w = None → no_override w →
   fst (getPortConfiguration w) = Ret (VNum 3001)).
Proof.
  unfold getPortConfiguration, portAfterEnv.
  split; [|split].
  - intros s Henv. unfold envPort in Henv. exec.
    destruct (env w !! "PORT") as [s'|]; [|discriminate].
    cbn [truthy]. destruct (String.eqb s' ""); [discriminate|].
    simplify_eq. exec. reflexivity.
  - intros port Henv Hfile. exec.
    rewrite (envPort_none_falsy w Henv).
    unfold filePort in Hfile. unfold portFromConfigFile. exec.
    repeat (split_hyp; exec; simplify_eq/=).
    reflexivity.
  - intros Henv Hfile Hprompt. exec.
    rewrite (envPort_none_falsy w Henv).
    destruct (portFromConfigFile_without_port w Hfile) as (config & w1 & Hrun & Hpkg & Hin).
    rewrite Hrun.
    assert (Hprompt1 : no_override w1).
    { unfold no_override in *. rewrite Hpkg, Hin. exact Hprompt. }
    destruct (portFromPrompt_no_override w1 config Hprompt1) as [w2 [Hp | Hp]];
      rewrite Hp; reflexivity.
Qed.

(** *** Database configuration *)

(** C10.  With a config file that is there and can be read but does not
    parse, [getDbConfig] ends exactly as it does when the file is absent
    (the same configuration returned, or the same failure, from the
    environment variables or the prompt, with the same lines consumed);
    the one difference in what it does is that it reads the file and logs
    the parse error before going on.  The unparsable file is overwritten
    where the absent one would be created, and is left as it is
    otherwise.  In particular, with the four database variables set, the
    configuration returned is the one they spell. *)
Theorem getDbConfig_unparsable_file_as_absent (w : World) (n : Z) :
  fs w !! configPath = Some (Bytes n) →
  fault w (EvRead configPath) = None →
  let absent := set_fs (delete configPath (fs w)) w in
  let parse_error :=
    EvConsole console_error_
      [VStr "Error reading config file:"; VError (SyntaxError "Unexpected token in JSON")] in
  ∃ rest,
    fst (getDbConfig w) = fst (getDbConfig absent) ∧
    trace (snd (getDbConfig w))
    = (trace w ++ [EvExists configPath; EvRead configPath; parse_error] ++ rest)%list ∧
    trace (snd (getDbConfig absent)) = (trace w ++ [EvExists configPath] ++ rest)%list ∧
    stdin (snd (getDbConfig w)) = stdin (snd (getDbConfig absent)) ∧
    (fs (snd (getDbConfig w)) = fs (snd (getDbConfig absent))
     ∨ (fs (snd (getDbConfig w)) = fs w ∧
        fs (snd (getDbConfig absent)) = delete configPath (fs w))) ∧
    (∀ user password server database,
       env w !! "DB_USER" = Some user → user ≠ "" →
       env w !! "DB_PASSWORD" = Some password → password ≠ "" →
       env w !! "DB_SERVER" = Some server → server ≠ "" →
       env w !! "DB_NAME" = Some database → database ≠ "" →
       fst (getDbConfig w)
       = Ret (VObj [("user", VStr user); ("password", VStr password);
                    ("server", VStr server); ("database", VStr database)])).
Proof.
  intros Hfile Hread absent parse_error. subst absent parse_error.
  assert (Henv : ∀ user password server database,
       env w !! "DB_USER" = Some user → user ≠ "" →
       env w !! "DB_PASSWORD" = Some password → password ≠ "" →
       env w !! "DB_SERVER" = Some server → server ≠ "" →
       env w !! "DB_NAME" = Some database → database ≠ "" →
       fst (getDbConfig w)
       = Ret (VObj [("user", VStr user); ("password", VStr password);
                    ("server", VStr server); ("database", VStr database)])).
  { intros user password server database Hu Hu' Hp Hp' Hs Hs' Hd Hd'.
    apply String.eqb_neq in Hu', Hp', Hs', Hd'.
    unfold getDbConfig. exec. cbn [truthy]. rewrite Hu', Hp', Hs', Hd'.
    cbn [negb andb]. exec.
    destruct (fault w (EvWrite configPath)); reflexivity. }
  destruct (getDbConfig w) as [r1 w1] eqn:E1.
  destruct (getDbConfig (set_fs (delete configPath (fs w)) w)) as [r0 w0] eqn:E0.
  unfold getDbConfig in E1, E0. exec.
  rewrite lookup_delete_eq in E0. exec.
  set (user := match env w !! "DB_USER" with Some s => VStr s | None => VUndefined end) in *.
  set (password := match env w !! "DB_PASSWORD" with Some s => VStr s | None => VUndefined end) in *.
  set (server := match env w !! "DB_SERVER" with Some s => VStr s | None => VUndefined end) in *.
  set (database := match env w !! "DB_NAME" with Some s => VStr s | None => VUndefined end) in *.
  clearbody user password server database.
  repeat (split_hyp; exec; simplify_eq/=).
  all: eexists; split; [reflexivity|].
  all: split; [trace_tail|]; split; [trace_tail|]; split; [reflexivity|].
  all: split; [|exact Henv].
  all: try (right; split; reflexivity).
  all: left; symmetry; apply insert_delete_eq.
Qed.

(** *** Startup *)

(** [quiet] is closed under the monad's combinators and holds of every
    primitive but [process_exit] and [app_listen]. *)
Lemma quiet_ret {A : Type} (a : A) : quiet (ret a).
Proof. intros w. exists []. cbn. rewrite app_nil_r. repeat split. Qed.

Lemma quiet_throw {A : Type} (e : Error) : quiet (@throw A e).
Proof. intros w. exists []. cbn. rewrite app_nil_r. repeat split. Qed.

Lemma quiet_get {A : Type} (f : World → A) : quiet (get f).
Proof. intros w. exists []. cbn. rewrite app_nil_r. repeat split. Qed.

Lemma quiet_bind {A B : Type} (m : M A) (k : A → M B) :
  quiet m → (∀ a, quiet (k a)) → quiet (bind m k).
Proof.
  intros Hm Hk w. unfold bind.
  destruct (Hm w) as (evs1 & Ht1 & Hq1 & Hl1 & Hs1 & Hf1).
  destruct (m w) as [[a|e| |c] w1]; cbn [snd] in *;
    try (exists evs1; repeat split; assumption).
  destruct (Hk a w1) as (evs2 & Ht2 & Hq2 & Hl2 & Hs2 & Hf2).
  exists (evs1 ++ evs2)%list. repeat split; try congruence.
  - rewrite Ht2, Ht1. symmetry. apply app_assoc.
  - rewrite forallb_app, Hq1, Hq2. reflexivity.
Qed.

Lemma quiet_try_catch {A : Type} (body : M A) (handler : Error → M A) :
  quiet body → (∀ e, quiet (handler e)) → quiet (try_catch body handler).
Proof.
  intros Hm Hk w. unfold try_catch.
  destruct (Hm w) as (evs1 & Ht1 & Hq1 & Hl1 & Hs1 & Hf1).
  destruct (body w) as [[a|e| |c] w1]; cbn [snd] in *;
    try (exists evs1; repeat split; assumption).
  destruct (Hk e w1) as (evs2 & Ht2 & Hq2 & Hl2 & Hs2 & Hf2).
  exists (evs1 ++ evs2)%list. repeat split; try congruence.
  - rewrite Ht2, Ht1. symmetry. apply app_assoc.
  - rewrite forallb_app, Hq1, Hq2. reflexivity.
Qed.

Lemma quiet_emit (e : Event) : exits_or_listens e = false → quiet (emit e).
Proof. intros He w. exists [e]. cbn. rewrite He. repeat split. Qed.

Lemma quiet_attempt (e : Event) : exits_or_listens e = false → quiet (attempt e).
Proof.
  intros He w. exists [e]. unfold attempt.
  destruct (fault w e); cbn; rewrite He; repeat split.
Qed.

Lemma quiet_set_fs (f : World → gmap string FileData) :
  quiet (modify (λ w, set_fs (f w) w)).
Proof. intros w. exists []. cbn. rewrite app_nil_r. repeat split. Qed.

Lemma quiet_prompt (question : string) : quiet (prompt question).
Proof.
  intros w. exists [EvPrompt question]. unfold prompt.
  destruct (stdin w); cbn; repeat split.
Qed.

Create HintDb quiet.
#[local] Hint Resolve quiet_ret quiet_throw quiet_get quiet_emit quiet_attempt
  quiet_set_fs quiet_prompt : quiet.

(** Follow the structure of a computation down to its primitives. *)
Ltac quiet_tac :=
  repeat (cbv beta zeta;
          unfold console_log, console_warn, console_error, process_env,
            fs_existsSync, fs_readFileSync, fs_writeFileSync, JSON_parse;
          match goal with
          | |- ∀ _, _ => intros ?
          | |- quiet (bind _ _) => apply quiet_bind
          | |- quiet (try_catch _ _) => apply quiet_try_catch
          | |- quiet (match ?x with _ => _ end) => destruct x
          | |- quiet _ => solve [auto with quiet]
          end).

(** What [getDbConfig] does to the world. *)
Lemma getDbConfig_quiet : quiet getDbConfig.
Proof. unfold getDbConfig. quiet_tac. Qed.

(** [validateDbConfig] only looks at its argument. *)
Lemma validateDbConfig_pure (config : Value) (w : World) :
  snd (validateDbConfig config w) = w.
Proof.
  unfold validateDbConfig.
  destruct (negb (truthy config)); [reflexivity|].
  destruct (0 <? _); reflexivity.
Qed.

(** C4, as the code has it.  When the configuration cannot be resolved
    or validated, or the connection is refused, [initializeServer]
    catches the error, logs that the initialization failed and returns
    normally: the program does not call [process.exit], so it sets no
    exit code, and it does not open the listener; the listener and the
    signal handler are as they were before the start. *)
Theorem initialization_failure_no_exit (w : World) :
  startup_fails w →
  ∃ w' evs,
    main w = (Ret tt, w') ∧
    listening w' = listening w ∧
    sigint w' = sigint w ∧
    trace w' = (trace w ++ evs ++
                [EvConsole console_error_ [VStr "❌ Server initialization failed:"]])%list ∧
    forallb (λ e, negb (exits_or_listens e)) evs = true.
Proof.
  intros Hfail. unfold main, initializeServer.
  destruct (getDbConfig_quiet w) as (evs & Htrace & Hquiet & Hlisten & Hsig & Hfault).
  destruct Hfail as [(e & w1 & Hcfg) | [(cfg & w1 & e & w2 & Hcfg & Hval) | (cfg & w1 & e & Hcfg & Hval & Hconn)]];
    rewrite Hcfg in Htrace, Hlisten, Hsig, Hfault; cbn [snd] in *.
  - exec.
    eexists _, evs. repeat split; try assumption.
    cbn [trace]. rewrite Htrace. trace_tail.
  - pose proof (validateDbConfig_pure cfg w1) as Hpure. rewrite Hval in Hpure.
    cbn in Hpure. subst w2.
    exec.
    eexists _, evs. repeat split; try assumption.
    cbn [trace]. rewrite Htrace. trace_tail.
  - exec. rewrite Hfault, Hconn. exec.
    eexists _, (evs ++ [EvConsole console_log_ [VStr "Connecting to database..."]; EvConnect])%list.
    repeat split; try assumption.
    + cbn [trace]. rewrite Htrace. trace_tail.
    + rewrite forallb_app, Hquiet. reflexivity.
Qed.
End Properties.

(** * Properties beyond the claims *)

(** ** [parseInt] after [String] *)

Ltac eval_codes :=
  repeat match goal with
         | |- context [code ?c] =>
             let v := eval vm_compute in (code c) in change (code c) with v
         end.

Lemma leadingDigits_step (c : ascii) (k : Z) (s : string) (acc : option Z) :
  digitValue c = Some k → k < 10 →
  leadingDigits 10 (String c s) acc
  = leadingDigits 10 s (Some (10 * match acc with Some a => a | None => 0 end + k)).
Proof.
  intros Hc Hk. cbn [leadingDigits]. rewrite Hc.
  apply Z.ltb_lt in Hk. rewrite Hk. destruct acc; reflexivity.
Qed.

Lemma leadingDigits_decimal_acc (d : Decimal.uint) (a : positive) :
  leadingDigits 10 (NilEmpty.string_of_uint d) (Some (Zpos a))
  = Some (Zpos (Pos.of_uint_acc d a)).
Proof.
  revert a. induction d; intros a; cbn [NilEmpty.string_of_uint Pos.of_uint_acc];
    [reflexivity | ..];
    (erewrite leadingDigits_step by first [reflexivity | lia]);
    cbv beta iota; rewrite <- IHd; do 2 f_equal; eval_codes; lia.
Qed.

Lemma leadingDigits_decimal_zero (d : Decimal.uint) :
  leadingDigits 10 (NilEmpty.string_of_uint d) (Some 0)
  = Some (Z.of_N (Pos.of_uint d)).
Proof.
  induction d; cbn [NilEmpty.string_of_uint Pos.of_uint];
    [reflexivity | ..];
    (erewrite leadingDigits_step by first [reflexivity | lia]);
    cbv beta iota; eval_codes; [exact IHd | ..];
    cbn [Z.of_N]; rewrite <- leadingDigits_decimal_acc; reflexivity.
Qed.

Lemma parseInt_decimal_uint (d : Decimal.uint) :
  d ≠ Decimal.Nil →
  parseInt (NilEmpty.string_of_uint d) = Some (Z.of_N (Pos.of_uint d)) ∧
  parseInt (String "-" (NilEmpty.string_of_uint d)) = Some (- Z.of_N (Pos.of_uint d)).
Proof.
  intros Hd.
  assert (Hdigits : leadingDigits 10 (NilEmpty.string_of_uint d) None
                    = Some (Z.of_N (Pos.of_uint d))).
  { rewrite <- leadingDigits_decimal_zero.
    destruct d; try congruence; reflexivity. }
  split.
  - transitivity (match leadingDigits 10 (NilEmpty.string_of_uint d) None with
                  | Some n => Some (1 * n) | None => None end).
    + destruct d as [|d'|d'|d'|d'|d'|d'|d'|d'|d'|d']; try congruence;
        try reflexivity.
      destruct d'; reflexivity.
    + rewrite Hdigits. f_equal; lia.
  - transitivity (match leadingDigits 10 (NilEmpty.string_of_uint d) None with
                  | Some n => Some (-1 * n) | None => None end).
    + destruct d as [|d'|d'|d'|d'|d'|d'|d'|d'|d'|d']; try congruence;
        try reflexivity.
      destruct d'; reflexivity.
    + rewrite Hdigits. f_equal; lia.
Qed.

(** [parseInt] reads back what [String(n)] prints, for every integer. *)
Lemma parseInt_decimal (n : Z) : parseInt (decimal n) = Some n.
Proof.
  unfold decimal. destruct n as [|p|p]; [reflexivity | |];
    cbn [Z.to_int NilZero.string_of_int];
    pose proof (Unsigned.to_uint_nonnil p) as Hnil;
    destruct (parseInt_decimal_uint (Pos.to_uint p) Hnil) as [Hpos Hneg];
    unfold NilZero.string_of_uint;
    destruct (Pos.to_uint p) eqn:E; try congruence;
    rewrite <- E in *; rewrite ?Hpos, ?Hneg, Unsigned.of_to; reflexivity.
Qed.

(** ** The routes, the configuration and the start *)

(** Symbolic execution through [req.file]. *)
Ltac exec_file :=
  repeat (progress (exec; cbn [file_filename file_path file_originalname
                               file_mimetype file_size
                               rows object_id identity] in * )).

Section Behaviour.
Context `{node : NodePath}.

(** X1.  An accepted upload whose insert fails while the written file can
    be removed: the answer is 500 "DB insert failed" with the error's
    message, and the file system and the table are as before the request
    (the written file is gone, no row was added). *)
Theorem upload_insert_failure_leaves_no_orphan (w : World) (p : Part) (e : Error) :
  accepted p →
  let name := decimal (now w) ++ "-" ++ decimal (random w)
              ++ path_extname (part_originalname p) in
  let finalPath := path_join imageUploadDirectory name in
  fs w !! finalPath = None →
  fault w (EvWrite finalPath) = None →
  fault w (EvQuery (InsertImage ("/uploads/images/" ++ name))) = Some e →
  fault w (EvUnlink finalPath) = None →
  ∃ w',
    post_api_upload (Some p) w
    = (Ret (mkResponse 500 (VObj [("error", VStr "DB insert failed");
                                  ("details", VStr (err_message e))])), w') ∧
    fs w' = fs w ∧
    images w' = images w.
Proof.
  intros (Hfield & Hname & Htype & Hsize) name finalPath Hfresh Hwrite Hins Hunlink.
  subst name finalPath.
  unfold post_api_upload, multer_single, upload_handler, uniqueName. exec.
  rewrite Hfield, Htype. cbn [String.eqb Ascii.eqb Bool.eqb negb].
  apply String.eqb_neq in Hname. rewrite Hname.
  exec. assert (Hfit : (fileSize <? part_size p) = false) by (apply Z.ltb_ge; lia).
  rewrite Hfit. exec_file. rewrite lookup_insert_eq. exec.
  eexists. split; [reflexivity|]. split; [|reflexivity].
  cbn. apply delete_insert_id. exact Hfresh.
Qed.

(** X2.  An accepted upload followed by a listing: the upload answers 200
    with the stored path and the file name, and the listing that follows
    answers the rows that were there, then the new row, under the table's
    next identity value, with the stored path and the time of the
    insert. *)
Theorem upload_then_list (w : World) (p : Part) (tbl : Table) :
  accepted p →
  let name := decimal (now w) ++ "-" ++ decimal (random w)
              ++ path_extname (part_originalname p) in
  images w = Some tbl →
  fault w (EvWrite (path_join imageUploadDirectory name)) = None →
  fault w (EvQuery (InsertImage ("/uploads/images/" ++ name))) = None →
  fault w (EvQuery SelectAll) = None →
  ∃ w1 w2,
    post_api_upload (Some p) w
    = (Ret (mkResponse 200 (VObj [("message", VStr "Image uploaded successfully");
                                  ("path", VStr ("/uploads/images/" ++ name));
                                  ("filename", VStr name)])), w1) ∧
    images_handler w1
    = (Ret (mkResponse 200
              (VArr (map row_json
                       (rows tbl ++ [mkRow (identity tbl) ("/uploads/images/" ++ name) (now w)])))),
       w2).
Proof.
  intros (Hfield & Hname & Htype & Hsize) name Htbl Hwrite Hins Hsel. subst name.
  unfold post_api_upload, multer_single, upload_handler, uniqueName. exec.
  rewrite Hfield, Htype. cbn [String.eqb Ascii.eqb Bool.eqb negb].
  apply String.eqb_neq in Hname. rewrite Hname.
  exec. assert (Hfit : (fileSize <? part_size p) = false) by (apply Z.ltb_ge; lia).
  rewrite Hfit. exec_file.
  eexists _, _. split; [reflexivity|].
  unfold images_handler. exec. reflexivity.
Qed.

Lemma filter_keep_all (id : Z) (rs : list ImageRow) :
  (∀ r, In r rs → row_id r ≠ id) →
  List.filter (λ r, negb (has_id id r)) rs = rs.
Proof.
  induction rs as [|r rs IH]; intros Hno; [reflexivity|].
  cbn. unfold has_id at 1.
  destruct (Z.eqb_spec (row_id r) id) as [Heq|Hne].
  - exfalso. apply (Hno r); [left; reflexivity | exact Heq].
  - cbn. f_equal. apply IH. intros r' Hin. apply Hno. right. exact Hin.
Qed.

(** X3.  Upload, then delete by the identity the insert took: both answer
    200, the file the upload wrote is there in between, and afterwards
    the files and the rows are those from before the upload; only the
    identity counter has moved on, so the identifier is not reused. *)
Theorem upload_then_delete (w : World) (p : Part) (tbl : Table) (id_param : string) :
  accepted p →
  let name := decimal (now w) ++ "-" ++ decimal (random w)
              ++ path_extname (part_originalname p) in
  paths_agree name →
  images w = Some tbl →
  (∀ r, In r (rows tbl) → row_id r ≠ identity tbl) →
  parseInt id_param = Some (identity tbl) →
  fs w !! uploadedFile name = None →
  fault w (EvWrite (uploadedFile name)) = None →
  fault w (EvQuery (InsertImage (storedPath name))) = None →
  fault w (EvQuery (SelectPathById (identity tbl))) = None →
  fault w (EvUnlink (uploadedFile name)) = None →
  fault w (EvQuery (DeleteById (identity tbl))) = None →
  ∃ resp w1 w2,
    post_api_upload (Some p) w = (Ret resp, w1) ∧ status resp = 200 ∧
    fs w1 !! uploadedFile name = Some (Bytes (part_size p)) ∧
    delete_handler id_param w1
    = (Ret (mkResponse 200 (VObj [("message", VStr "Image deleted")])), w2) ∧
    fs w2 = fs w ∧
    images w2 = Some (mkTable (object_id tbl) (rows tbl) (identity tbl + 1)).
Proof.
  intros (Hfield & Hname & Htype & Hsize) name Hpath Htbl Hnew Hid
    Hfresh Hwrite Hins Hsel Hunlink Hdel.
  subst name. unfold paths_agree, uploadedFile, storedPath in *.
  unfold post_api_upload, multer_single, upload_handler, uniqueName. exec.
  rewrite Hfield, Htype. cbn [String.eqb Ascii.eqb Bool.eqb negb].
  apply String.eqb_neq in Hname. rewrite Hname.
  exec. assert (Hfit : (fileSize <? part_size p) = false) by (apply Z.ltb_ge; lia).
  rewrite Hfit. exec_file.
  eexists _, _, _. split; [reflexivity|]. split; [reflexivity|].
  split; [cbn [fs]; rewrite lookup_insert_eq, Z.min_l by lia; reflexivity|].
  unfold delete_handler. rewrite Hid. exec_file.
  rewrite List.filter_app, (filter_has_id_none _ _ Hnew). cbn [List.filter rows row_id app].
  unfold has_id at 1. cbn [row_id]. rewrite Z.eqb_refl. cbn [map image_path].
  change (fullPath ("/uploads/images/" ++ ?n)) with (path_resolve baseDir ("uploads/images/" ++ n)).
  rewrite Hpath. exec. repeat (rewrite lookup_insert_eq; exec_file).
  split; [reflexivity|]. cbn [fs images]. split.
  - apply delete_insert_id. exact Hfresh.
  - do 2 f_equal. rewrite List.filter_app, (filter_keep_all _ _ Hnew).
    cbn. unfold has_id. cbn. rewrite Z.eqb_refl. cbn. apply app_nil_r.
Qed.

(** X4.  A delete whose file is on disk and cannot be removed: the answer
    is 500 "Delete failed" with the error's message, the row and the
    file both stay, and no delete statement is sent (the effects are the
    select, the existence test and the failed removal). *)
Theorem delete_unlink_failure_keeps_row
    (w : World) (id_param : string) (id : Z) (tbl : Table) (imagePath : string)
    (d : FileData) (e : Error) :
  parseInt id_param = Some id →
  images w = Some tbl →
  head (map image_path (List.filter (has_id id) (rows tbl))) = Some imagePath →
  fs w !! fullPath imagePath = Some d →
  fault w (EvQuery (SelectPathById id)) = None →
  fault w (EvUnlink (fullPath imagePath)) = Some e →
  ∃ w',
    delete_handler id_param w
    = (Ret (mkResponse 500 (VObj [("error", VStr "Delete failed");
                                  ("details", VStr (err_message e))])), w') ∧
    images w' = images w ∧ fs w' = fs w ∧
    trace w' = (trace w ++ [EvQuery (SelectPathById id); EvExists (fullPath imagePath);
                            EvUnlink (fullPath imagePath)])%list.
Proof.
  intros Hid Htbl Hhead Hfile Hsel Hunlink.
  unfold delete_handler. rewrite Hid. exec.
  destruct (map image_path (List.filter (has_id id) (rows tbl))) as [|q qs];
    cbn in Hhead; simplify_eq.
  exec. eexists. split; [reflexivity|]. cbn [images fs trace].
  split; [reflexivity|]. split; [reflexivity | trace_tail].
Qed.

(** X5.  A delete whose file is removed and whose delete statement then
    fails: the answer is 500 "Delete failed", the row is still in the
    table, and its file is gone: the two steps are not undone
    together. *)
Theorem delete_row_failure_after_file_removed
    (w : World) (id_param : string) (id : Z) (tbl : Table) (imagePath : string)
    (d : FileData) (e : Error) :
  parseInt id_param = Some id →
  images w = Some tbl →
  head (map image_path (List.filter (has_id id) (rows tbl))) = Some imagePath →
  fs w !! fullPath imagePath = Some d →
  fault w (EvQuery (SelectPathById id)) = None →
  fault w (EvUnlink (fullPath imagePath)) = None →
  fault w (EvQuery (DeleteById id)) = Some e →
  ∃ w',
    delete_handler id_param w
    = (Ret (mkResponse 500 (VObj [("error", VStr "Delete failed");
                                  ("details", VStr (err_message e))])), w') ∧
    images w' = images w ∧
    fs w' = delete (fullPath imagePath) (fs w).
Proof.
  intros Hid Htbl Hhead Hfile Hsel Hunlink Hdel.
  unfold delete_handler. rewrite Hid. exec.
  destruct (map image_path (List.filter (has_id id) (rows tbl))) as [|q qs];
    cbn in Hhead; simplify_eq.
  exec. eexists. split; [reflexivity|]. cbn [images fs].
  split; reflexivity.
Qed.


(** X7.  [GET /api/images] only reads: it leaves the table and the files
    as they are; it answers 200 with the rows of the table, in the
    table's order, when the select succeeds, 500 with the error's message
    when the driver refuses it, and never anything else. *)
Theorem images_handler_read_only (w : World) :
  (images (snd (images_handler w)) = images w ∧ fs (snd (images_handler w)) = fs w) ∧
  (∀ tbl, images w = Some tbl → fault w (EvQuery SelectAll) = None →
          fst (images_handler w) = Ret (mkResponse 200 (VArr (map row_json (rows tbl))))) ∧
  (∀ e, fault w (EvQuery SelectAll) = Some e →
        fst (images_handler w)
        = Ret (mkResponse 500 (VObj [("error", VStr "DB fetch failed");
                                     ("details", VStr (err_message e))]))) ∧
  (∀ resp, fst (images_handler w) = Ret resp → status resp = 200 ∨ status resp = 500).
Proof.
  unfold images_handler. repeat split.
  - exec. repeat (split_match; exec); reflexivity.
  - exec. repeat (split_match; exec); reflexivity.
  - intros tbl Htbl Hsel. exec. reflexivity.
  - intros e Hsel. exec. reflexivity.
  - intros resp. exec. repeat (split_match; exec); intros Hr; simplify_eq; cbn; auto.
Qed.

(** X8.  On a database without the table, the bootstrap creates it and
    the listing that follows answers 200 with the empty array. *)
Theorem bootstrap_then_list_empty (w : World) :
  images w = None →
  fault w (EvQuery SelectObjectId) = None →
  fault w (EvQuery CreateTable) = None →
  fault w (EvQuery SelectAll) = None →
  ∃ w1,
    checkAndCreateTable w = (Ret true, w1) ∧
    fst (images_handler w1) = Ret (mkResponse 200 (VArr [])).
Proof.
  intros Hnone Hsel Hcreate Hall.
  unfold checkAndCreateTable. exec. cbn [truthy negb]. exec.
  eexists. split; [reflexivity|].
  unfold images_handler. exec. reflexivity.
Qed.

(** *** Configuration *)

(** X9.  [validateDbConfig] returns [true] exactly when the
    configuration is truthy and each of [user], [password], [server] and
    [database] holds a truthy value; otherwise it throws a
    [ConfigurationError]; it performs no effect. *)
Theorem validateDbConfig_accepts_iff (config : Value) (w : World) :
  (fst (validateDbConfig config w) = Ret true
   ↔ truthy config = true ∧
     Forall (λ k, truthy (field config k) = true) requiredFields) ∧
  (∀ r, fst (validateDbConfig config w) = r →
        r = Ret true ∨ ∃ message, r = Throw (ConfigurationError message)) ∧
  snd (validateDbConfig config w) = w.
Proof.
  unfold validateDbConfig, requiredFields.
  destruct (truthy config) eqn:Hcfg; cbn [negb].
  2:{ repeat split; try discriminate; try (intros [? _]; discriminate).
      intros r <-. right. eexists. reflexivity. }
  cbn [List.filter].
  destruct (truthy (field config "user")) eqn:Hu,
           (truthy (field config "password")) eqn:Hp,
           (truthy (field config "server")) eqn:Hs,
           (truthy (field config "database")) eqn:Hd;
    cbn [negb length Z.of_nat Z.ltb Z.compare fst snd throw ret].
  all: repeat split; try discriminate; try reflexivity.
  all: try (intros r <-; first [left; reflexivity | right; eexists; reflexivity]).
  all: try (intros [_ Hall]; repeat (apply Forall_cons_iff in Hall as [? Hall]); congruence).
  repeat constructor; assumption.
Qed.

(** X10.  A config file that parses is returned as it is, whatever it
    holds (the required fields are not looked at here), after the
    existence test and the read and nothing else: the environment and
    the prompt are not consulted. *)
Theorem getDbConfig_file_verbatim (w : World) (config : Value) :
  fs w !! configPath = Some (Json config) →
  fault w (EvRead configPath) = None →
  getDbConfig w = (Ret config, record (EvRead configPath) (record (EvExists configPath) w)).
Proof.
  intros Hfile Hread. unfold getDbConfig. exec. reflexivity.
Qed.

(** [process.env.X] is truthy exactly when [X] is set and not empty. *)
Lemma envComplete_truthy (w : World) :
  envComplete w
  = truthy (match env w !! "DB_USER" with Some s => VStr s | None => VUndefined end)
    && truthy (match env w !! "DB_PASSWORD" with Some s => VStr s | None => VUndefined end)
    && truthy (match env w !! "DB_SERVER" with Some s => VStr s | None => VUndefined end)
    && truthy (match env w !! "DB_NAME" with Some s => VStr s | None => VUndefined end).
Proof.
  unfold envComplete.
  destruct (env w !! "DB_USER"), (env w !! "DB_PASSWORD"),
           (env w !! "DB_SERVER"), (env w !! "DB_NAME"); reflexivity.
Qed.

(** X11.  With no config file and the four database variables set and
    not empty, [getDbConfig] returns them as the configuration without
    prompting, the result passes validation, and it is written to the
    config file; from then on the file answers, whatever the environment
    holds.  When the write fails the result is the same and the files
    are unchanged. *)
Theorem getDbConfig_env_persisted (w : World) :
  fs w !! configPath = None →
  envComplete w = true →
  ∃ user password server database w1,
    let config := VObj [("user", VStr user); ("password", VStr password);
                        ("server", VStr server); ("database", VStr database)] in
    env w !! "DB_USER" = Some user ∧ env w !! "DB_PASSWORD" = Some password ∧
    env w !! "DB_SERVER" = Some server ∧ env w !! "DB_NAME" = Some database ∧
    getDbConfig w = (Ret config, w1) ∧
    stdin w1 = stdin w ∧
    fst (validateDbConfig config w1) = Ret true ∧
    (fault w (EvWrite configPath) = None →
     fs w1 = <[configPath := Json config]> (fs w) ∧
     ∀ e, fault w (EvRead configPath) = None →
          fst (getDbConfig (with_env e w1)) = Ret config) ∧
    (is_Some (fault w (EvWrite configPath)) → fs w1 = fs w).
Proof.
  intros Hfile Hcomplete. rewrite envComplete_truthy in Hcomplete.
  unfold getDbConfig. exec.
  destruct (env w !! "DB_USER") as [user|]; [|discriminate].
  destruct (env w !! "DB_PASSWORD") as [password|];
    [|rewrite andb_false_r in Hcomplete; discriminate].
  destruct (env w !! "DB_SERVER") as [server|];
    [|rewrite !andb_false_r in Hcomplete; discriminate].
  destruct (env w !! "DB_NAME") as [database|];
    [|rewrite !andb_false_r in Hcomplete; discriminate].
  exec.
  exists user, password, server, database.
  cbn [truthy] in Hcomplete.
  apply andb_true_iff in Hcomplete as [Hcomplete Hd].
  apply andb_true_iff in Hcomplete as [Hcomplete Hs].
  apply andb_true_iff in Hcomplete as [Hu Hp].
  destruct (fault w (EvWrite configPath)) as [e|] eqn:Hwrite; exec.
  - eexists. cbn zeta. do 6 (split; [reflexivity|]).
    split; [unfold validateDbConfig, requiredFields; cbn; rewrite Hu, Hp, Hs, Hd; reflexivity|].
    split; [intros Hnone; discriminate | intros _; reflexivity].
  - eexists. cbn zeta. do 6 (split; [reflexivity|]).
    split; [unfold validateDbConfig, requiredFields; cbn; rewrite Hu, Hp, Hs, Hd; reflexivity|].
    split; [|intros [e He]; discriminate].
    intros _. split; [reflexivity|].
    intros env' Hread. unfold getDbConfig, with_env. exec.
    rewrite lookup_insert_eq. exec. rewrite lookup_insert_eq. exec. reflexivity.
Qed.

(** X12.  With no config file and the variables incomplete,
    [getDbConfig] asks five questions.  The four first answers are the
    configuration, unchecked; the fifth, in any letter case, decides
    whether it is written to the config file.  A write that fails is
    thrown (this one is not guarded).  With fewer than five lines of
    input the function waits for input and returns nothing. *)
Theorem getDbConfig_prompted (w : World) :
  fs w !! configPath = None →
  envComplete w = false →
  (∀ user password server database save rest,
     stdin w = user :: password :: server :: database :: save :: rest →
     let config := VObj [("user", VStr user); ("password", VStr password);
                         ("server", VStr server); ("database", VStr database)] in
     (toLowerCase save ≠ "y" →
      ∃ w1, getDbConfig w = (Ret config, w1) ∧ fs w1 = fs w ∧ stdin w1 = rest) ∧
     (toLowerCase save = "y" → fault w (EvWrite configPath) = None →
      ∃ w1, getDbConfig w = (Ret config, w1) ∧
            fs w1 = <[configPath := Json config]> (fs w) ∧ stdin w1 = rest) ∧
     (toLowerCase save = "y" → ∀ e, fault w (EvWrite configPath) = Some e →
      ∃ w1, getDbConfig w = (Throw e, w1) ∧ fs w1 = fs w)) ∧
  ((length (stdin w) < 5)%nat → fst (getDbConfig w) = Blocked).
Proof.
  intros Hfile Hcomplete. rewrite envComplete_truthy in Hcomplete.
  unfold getDbConfig. exec. split.
  - intros user password server database save rest Hin.
    exec. repeat split.
    + intros Hno. apply String.eqb_neq in Hno. rewrite Hno. exec.
      eexists. repeat split.
    + intros Hyes Hwrite. apply String.eqb_eq in Hyes. rewrite Hyes. exec.
      eexists. repeat split.
    + intros Hyes e Hwrite. apply String.eqb_eq in Hyes. rewrite Hyes. exec.
      eexists. repeat split.
  - intros Hshort.
    destruct (stdin w) as [|a1 [|a2 [|a3 [|a4 [|a5 rest]]]]] eqn:Hin;
      cbn in Hshort; try lia; exec; reflexivity.
Qed.

(** *** Port *)

Lemma assoc_set_eq (k : string) (v : Value) (fields : list (string * Value)) :
  assoc k (assoc_set k v fields) = Some v.
Proof.
  induction fields as [|[k' v'] rest IH]; cbn.
  - rewrite String.eqb_refl. reflexivity.
  - destruct (String.eqb k k') eqn:E; cbn; rewrite ?String.eqb_refl, ?E; auto.
Qed.

Lemma assoc_set_ne (k k0 : string) (v : Value) (fields : list (string * Value)) :
  k0 ≠ k → assoc k0 (assoc_set k v fields) = assoc k0 fields.
Proof.
  intros Hne. induction fields as [|[k' v'] rest IH]; cbn.
  - apply String.eqb_neq in Hne. rewrite Hne. reflexivity.
  - destruct (String.eqb k k') eqn:E; cbn.
    + apply String.eqb_eq in E. subst k'.
      apply String.eqb_neq in Hne. rewrite Hne. reflexivity.
    + destruct (String.eqb k0 k'); auto.
Qed.

(** X13.  When neither [PORT] nor the config file gives a port, whatever
    [getPortConfiguration] returns is an integer of 1..65535. *)
Theorem getPortConfiguration_bounds (w : World) (v : Value) :
  envPort w = None →
  filePort w = None →
  fst (getPortConfiguration w) = Ret v →
  ∃ n, v = VNum n ∧ 1 <= n <= 65535.
Proof.
  intros Henv Hfile. unfold getPortConfiguration, portAfterEnv. exec.
  rewrite (envPort_none_falsy w Henv).
  destruct (portFromConfigFile_without_port w Hfile) as (config & w1 & Hrun & _ & _).
  rewrite Hrun. unfold portFromPrompt. exec.
  repeat (split_match; exec); cbn [fst]; intros Hv; simplify_eq;
    eexists; (split; [reflexivity | lia]).
Qed.

(** X14.  The packaged executable, an operator who answers [y] and a
    port of 1..65535: that port is returned, and written to the config
    file as the [port] field next to the fields the file had, so that the
    next resolution takes it from the file without prompting.  When the
    write fails the port is returned all the same and the files are
    unchanged. *)
Theorem getPortConfiguration_prompt_persisted
    (w : World) (fields : list (string * Value)) (a b : string) (rest : list string) (n : Z) :
  envPort w = None →
  fs w !! configPath = Some (Json (VObj fields)) →
  fault w (EvRead configPath) = None →
  filePort w = None →
  pkg w = true →
  stdin w = a :: b :: rest →
  toLowerCase a = "y" →
  parseInt b = Some n →
  1 <= n <= 65535 →
  ∃ w1,
    getPortConfiguration w = (Ret (VNum n), w1) ∧
    stdin w1 = rest ∧
    (fault w (EvWrite configPath) = None →
     fs w1 = <[configPath := Json (VObj (assoc_set "port" (VNum n) fields))]> (fs w) ∧
     (∀ k, k ≠ "port" → assoc k (assoc_set "port" (VNum n) fields) = assoc k fields) ∧
     getPortConfiguration w1
     = (Ret (VNum n),
        record (EvConsole console_log_ [VStr "Using port "; VNum n; VStr " from config.json"])
          (record (EvRead configPath) (record (EvExists configPath) w1)))) ∧
    (is_Some (fault w (EvWrite configPath)) → fs w1 = fs w).
Proof.
  intros Henv Hfs Hread Hfile Hpkg Hin Hyes Hparse Hrange.
  assert (Hnoport : match assoc "port" fields with
                    | Some port => truthy port = false | None => True end).
  { unfold filePort in Hfile. rewrite Hfs, Hread in Hfile.
    destruct (assoc "port" fields) as [port|]; [|exact I].
    destruct (truthy port); [discriminate | reflexivity]. }
  apply String.eqb_eq in Hyes.
  assert (Hin_range : (n <? 1) || (65535 <? n) = false).
  { apply orb_false_iff. split; apply Z.ltb_ge; lia. }
  unfold getPortConfiguration, portAfterEnv, portFromConfigFile, portFromPrompt. exec.
  rewrite (envPort_none_falsy w Henv). exec.
  assert (Hfalsy : truthy (match assoc "port" fields with
                           | Some x => x | None => VUndefined end) = false).
  { destruct (assoc "port" fields); [exact Hnoport | reflexivity]. }
  rewrite ?Hfalsy. exec. rewrite ?Hyes. exec. rewrite ?Hin_range. exec.
  destruct (fault w (EvWrite configPath)) as [e|] eqn:Hwrite; exec.
  - eexists. split; [reflexivity|]. split; [reflexivity|].
    split; [discriminate | reflexivity].
  - eexists. split; [reflexivity|]. split; [reflexivity|].
    split; [|intros [e He]; discriminate].
    intros _. split; [reflexivity|]. split.
    + intros k Hk. apply assoc_set_ne. exact Hk.
    + assert (Hnz : (n =? 0) = false) by (apply Z.eqb_neq; lia).
      repeat (first [rewrite (envPort_none_falsy w Henv)
                    | rewrite lookup_insert_eq | rewrite assoc_set_eq
                    | rewrite Hnz | progress cbn [truthy negb] | progress exec]).
      reflexivity.
Qed.

(** A config file that holds a port and nothing else is taken as the
    database configuration, and does not pass validation. *)
Lemma getDbConfig_port_only (w : World) (n : Z) :
  fs w !! configPath = Some (Json (VObj [("port", VNum n)])) →
  fault w (EvRead configPath) = None →
  ∃ w2 w3,
    getDbConfig w = (Ret (VObj [("port", VNum n)]), w2) ∧
    validateDbConfig (VObj [("port", VNum n)]) w2
    = (Throw (ConfigurationError
                "Missing required database configuration fields: user, password, server, database"),
       w3) ∧
    startup_fails w.
Proof.
  intros Hfs Hread.
  assert (Hdb : getDbConfig w
                = (Ret (VObj [("port", VNum n)]),
                   record (EvRead configPath) (record (EvExists configPath) w))).
  { unfold getDbConfig. exec. reflexivity. }
  eexists _, _. split; [exact Hdb|]. split; [reflexivity|].
  right. left. eexists _, _, _, _. split; [exact Hdb | reflexivity].
Qed.

(** X15.  When there is no config file at the time the port is prompted
    for (the credentials were entered and not saved), the file written
    holds the port alone; at the next start [getDbConfig] takes that
    file as the database configuration, validation throws "Missing
    required database configuration fields: user, password, server,
    database", and the start fails. *)
Theorem port_only_file_fails_next_start
    (w : World) (a b : string) (rest : list string) (n : Z) :
  envPort w = None →
  fs w !! configPath = None →
  pkg w = true →
  stdin w = a :: b :: rest →
  toLowerCase a = "y" →
  parseInt b = Some n →
  1 <= n <= 65535 →
  fault w (EvWrite configPath) = None →
  fault w (EvRead configPath) = None →
  ∃ w1,
    getPortConfiguration w = (Ret (VNum n), w1) ∧
    fs w1 !! configPath = Some (Json (VObj [("port", VNum n)])) ∧
    ∃ w2 w3,
      getDbConfig w1 = (Ret (VObj [("port", VNum n)]), w2) ∧
      validateDbConfig (VObj [("port", VNum n)]) w2
      = (Throw (ConfigurationError
                  "Missing required database configuration fields: user, password, server, database"),
         w3) ∧
      startup_fails w1.
Proof.
  intros Henv Hfs Hpkg Hin Hyes Hparse Hrange Hwrite Hread.
  apply String.eqb_eq in Hyes.
  assert (Hin_range : (n <? 1) || (65535 <? n) = false).
  { apply orb_false_iff. split; apply Z.ltb_ge; lia. }
  unfold getPortConfiguration, portAfterEnv, portFromConfigFile, portFromPrompt. exec.
  rewrite (envPort_none_falsy w Henv). exec. rewrite ?Hyes. exec.
  rewrite ?Hin_range. exec.
  eexists. split; [reflexivity|]. cbn [fs].
  split; [apply lookup_insert_eq|].
  apply getDbConfig_port_only; cbn [fs fault];
    [apply lookup_insert_eq | exact Hread].
Qed.

(** *** Bootstrap failures *)

(** X16.  Failures of the bootstrap: an error of the existence query or
    of the [CREATE TABLE] is thrown again as a [DatabaseError] whose
    message is "Error checking/creating table: " and the error's own;
    after a failed creation there is still no table; the function
    returns [true] or throws a [DatabaseError], nothing else; and an
    existing table is never changed. *)
Theorem checkAndCreateTable_failure (w : World) :
  (∀ e, fault w (EvQuery SelectObjectId) = Some e →
        checkAndCreateTable w
        = (Throw (DatabaseError ("Error checking/creating table: " ++ err_message e)),
           record (EvQuery SelectObjectId) w)) ∧
  (∀ e, fault w (EvQuery SelectObjectId) = None → images w = None →
        fault w (EvQuery CreateTable) = Some e →
        ∃ w', checkAndCreateTable w
              = (Throw (DatabaseError ("Error checking/creating table: " ++ err_message e)), w') ∧
              images w' = None) ∧
  (fst (checkAndCreateTable w) = Ret true
   ∨ ∃ message, fst (checkAndCreateTable w) = Throw (DatabaseError message)) ∧
  (is_Some (images w) → images (snd (checkAndCreateTable w)) = images w).
Proof.
  unfold checkAndCreateTable. repeat split.
  - intros e He. exec. reflexivity.
  - intros e Hsel Hnone He. exec. cbn [truthy negb]. exec.
    eexists. split; reflexivity.
  - exec. repeat (split_match; exec; cbn [truthy negb Z.eqb]); cbn [fst];
      first [left; reflexivity | right; eexists; reflexivity].
  - intros [t Ht].
    destruct (fault w (EvQuery SelectObjectId)) eqn:Hsel; exec;
      cbn [truthy negb Z.eqb]; exec; cbn [images snd]; rewrite ?Ht; reflexivity.
Qed.

(** *** What never ends the process *)

Lemma no_exit_ret {A : Type} (a : A) : no_exit (ret a).
Proof. intros w c. discriminate. Qed.

Lemma no_exit_throw {A : Type} (e : Error) : no_exit (@throw A e).
Proof. intros w c. discriminate. Qed.

Lemma no_exit_get {A : Type} (f : World → A) : no_exit (get f).
Proof. intros w c. discriminate. Qed.

Lemma no_exit_modify (f : World → World) : no_exit (modify f).
Proof. intros w c. discriminate. Qed.

Lemma no_exit_emit (e : Event) : no_exit (emit e).
Proof. intros w c. discriminate. Qed.

Lemma no_exit_attempt (e : Event) : no_exit (attempt e).
Proof. intros w c. unfold attempt. destruct (fault w e); discriminate. Qed.

Lemma no_exit_prompt (question : string) : no_exit (prompt question).
Proof. intros w c. unfold prompt. destruct (stdin w); discriminate. Qed.

Lemma no_exit_bind {A B : Type} (m : M A) (k : A → M B) :
  no_exit m → (∀ a, no_exit (k a)) → no_exit (bind m k).
Proof.
  intros Hm Hk w c. unfold bind. specialize (Hm w).
  destruct (m w) as [[a|e| |c'] w1]; cbn [fst] in *; try discriminate.
  - apply Hk.
  - exfalso. exact (Hm c' eq_refl).
Qed.

Lemma no_exit_try_catch {A : Type} (body : M A) (handler : Error → M A) :
  no_exit body → (∀ e, no_exit (handler e)) → no_exit (try_catch body handler).
Proof.
  intros Hm Hk w c. unfold try_catch. specialize (Hm w).
  destruct (body w) as [[a|e| |c'] w1]; cbn [fst] in *; try discriminate.
  - apply Hk.
  - exfalso. exact (Hm c' eq_refl).
Qed.

Lemma no_exit_app_listen (port : Value) : no_exit (app_listen port).
Proof.
  intros w c. unfold app_listen.
  destruct (fault w (EvListen port)) as [e|]; [destruct (String.eqb _ _)|]; discriminate.
Qed.

Create HintDb no_exit.
#[local] Hint Resolve no_exit_ret no_exit_throw no_exit_get no_exit_modify no_exit_emit
  no_exit_attempt no_exit_prompt no_exit_app_listen : no_exit.

Ltac no_exit_tac :=
  repeat (cbv beta zeta;
          unfold console_log, console_warn, console_error, process_env,
            fs_existsSync, fs_readFileSync, fs_writeFileSync, fs_unlinkSync,
            JSON_parse, JSON_stringify, prop, set_prop, sql_connect, with_table,
            query_object_id, query_create_table, query_insert, query_select_all,
            query_select_path, query_delete, res_json, res_status_json;
          match goal with
          | |- ∀ _, _ => intros ?
          | |- no_exit (bind _ _) => apply no_exit_bind
          | |- no_exit (try_catch _ _) => apply no_exit_try_catch
          | |- no_exit (match ?x with _ => _ end) => destruct x
          | |- no_exit _ => solve [auto with no_exit]
          end).

Lemma no_exit_getDbConfig : no_exit getDbConfig.
Proof. unfold getDbConfig. no_exit_tac. Qed.

Lemma no_exit_validateDbConfig (config : Value) : no_exit (validateDbConfig config).
Proof. unfold validateDbConfig. no_exit_tac. Qed.

Lemma no_exit_checkAndCreateTable : no_exit checkAndCreateTable.
Proof. unfold checkAndCreateTable. no_exit_tac. Qed.

Lemma no_exit_getPortConfiguration : no_exit getPortConfiguration.
Proof.
  unfold getPortConfiguration, portAfterEnv, portFromConfigFile, portFromPrompt.
  no_exit_tac.
Qed.


(** X18.  [initializeServer] never rejects and never exits: it returns,
    or waits on a prompt.  The [catch] at lines 475-479 is therefore
    never entered, and the program is [initializeServer]. *)
Theorem initializeServer_never_throws (w : World) :
  (fst (initializeServer w) = Ret tt ∨ fst (initializeServer w) = Blocked) ∧
  main w = initializeServer w.
Proof.
  assert (Hbody : fst (initializeServer w) = Ret tt ∨ fst (initializeServer w) = Blocked).
  { unfold initializeServer.
    match goal with
    | |- context [try_catch ?b ?h] =>
        assert (Hno : no_exit b);
        [| unfold try_catch; specialize (Hno w);
           destruct (b w) as [[[]|e| |c] w1]; cbn [fst] in *;
           [left; reflexivity | left; reflexivity | right; reflexivity
           | exfalso; exact (Hno c eq_refl)] ]
    end.
    repeat match goal with
           | |- ∀ _, _ => intros ?
           | |- no_exit getDbConfig => apply no_exit_getDbConfig
           | |- no_exit (validateDbConfig _) => apply no_exit_validateDbConfig
           | |- no_exit checkAndCreateTable => apply no_exit_checkAndCreateTable
           | |- no_exit getPortConfiguration => apply no_exit_getPortConfiguration
           | |- no_exit (bind _ _) => apply no_exit_bind
           | |- no_exit _ => solve [no_exit_tac]
           end. }
  split; [exact Hbody|].
  unfold main, try_catch.
  destruct (initializeServer w) as [[[]|e| |c] w1]; cbn [fst] in Hbody;
    try reflexivity.
  destruct Hbody; discriminate.
Qed.

(** *** Signals *)

(** X19.  With the handler installed, a first SIGINT only logs: the
    listener, the table and the files are as before; the second SIGINT
    exits with code 1. *)
Theorem SIGINT_twice (w : World) :
  sigint w = Some O →
  ∃ w1,
    on_SIGINT w = (Ret tt, w1) ∧
    listening w1 = listening w ∧ images w1 = images w ∧ fs w1 = fs w ∧
    fst (on_SIGINT w1) = Exit 1.
Proof.
  intros Hsig. unfold on_SIGINT. exec.
  eexists. split; [reflexivity|]. repeat split.
Qed.

(** *** The identity discipline *)

Lemma NoDup_map_filter {A B : Type} (f : A → B) (keep : A → bool) (l : list A) :
  List.NoDup (map f l) → List.NoDup (map f (List.filter keep l)).
Proof.
  induction l as [|x l IH]; cbn; intros Hnd; [constructor|].
  apply List.NoDup_cons_iff in Hnd as [Hx Hl].
  destruct (keep x); cbn; [|auto].
  apply List.NoDup_cons_iff. split; [|auto].
  intros Hin. apply Hx. apply in_map_iff in Hin as (y & Hy & Hiny).
  apply in_map_iff. exists y. split; [exact Hy|].
  apply filter_In in Hiny. tauto.
Qed.

Lemma table_ok_insert (t : Table) (path : string) (date : Z) :
  table_ok t →
  table_ok (mkTable (object_id t) (rows t ++ [mkRow (identity t) path date]) (identity t + 1)).
Proof.
  intros [Hnd Hlt]. split; cbn [rows identity].
  - rewrite map_app. cbn [map row_id]. apply List.NoDup_app.
    + exact Hnd.
    + repeat constructor. intros [].
    + intros x Hx [<-|[]]. apply in_map_iff in Hx as (r & Hr & Hin).
      specialize (Hlt r Hin). lia.
  - intros r Hin. apply in_app_iff in Hin as [Hin|[<-|[]]].
    + specialize (Hlt r Hin). lia.
    + cbn. lia.
Qed.

Lemma table_ok_delete (t : Table) (id : Z) :
  table_ok t →
  table_ok (mkTable (object_id t) (List.filter (λ r, negb (has_id id r)) (rows t)) (identity t)).
Proof.
  intros [Hnd Hlt]. split; cbn [rows identity].
  - apply NoDup_map_filter. exact Hnd.
  - intros r Hin. apply filter_In in Hin as [Hin _]. apply Hlt. exact Hin.
Qed.

Lemma table_ok_fresh : table_ok (mkTable 1%positive [] 1).
Proof. split; cbn; [constructor | intros r []]. Qed.

(** Close a leaf of the symbolic execution: the table is the one the
    world had, or that one after an insert or a delete, or a fresh one. *)
Ltac store_ok_leaf Hok :=
  unfold store_ok in *; cbn [images snd]; intros ? Heq;
  first [ injection Heq as <-;
          first [apply table_ok_insert | apply table_ok_delete | apply table_ok_fresh];
          apply Hok; assumption
        | apply Hok; congruence
        | discriminate ].

(** X20.  Identifiers stay pairwise distinct and below the next identity
    value through every route and through the bootstrap, whatever fails
    on the way; so a listing answered 200 never shows the same identifier
    twice. *)
Theorem identity_discipline_kept (w : World) :
  store_ok w →
  (∀ part, store_ok (snd (post_api_upload part w))) ∧
  (∀ id_param, store_ok (snd (delete_handler id_param w))) ∧
  store_ok (snd (images_handler w)) ∧
  store_ok (snd (checkAndCreateTable w)) ∧
  (∀ resp w',
     images_handler w = (Ret resp, w') → status resp = 200 →
     ∃ rs, body resp = VArr (map row_json rs) ∧ List.NoDup (map row_id rs)).
Proof.
  intros Hok. split; [|split; [|split; [|split]]].
  - intros part.
    destruct (post_api_upload part w) as [r w'] eqn:Hrun.
    unfold post_api_upload, multer_single, upload_handler, error_middleware, uniqueName in Hrun.
    destruct part as [p|]; exec.
    2:{ simplify_eq. exact Hok. }
    repeat (split_hyp; exec; simplify_eq/=); store_ok_leaf Hok.
  - intros id_param.
    destruct (delete_handler id_param w) as [r w'] eqn:Hrun.
    unfold delete_handler in Hrun.
    destruct (parseInt id_param) as [id|]; exec.
    2:{ simplify_eq. exact Hok. }
    repeat (split_hyp; exec; simplify_eq/=); store_ok_leaf Hok.
  - destruct (images_handler w) as [r w'] eqn:Hrun.
    unfold images_handler in Hrun. exec.
    repeat (split_hyp; exec; simplify_eq/=); store_ok_leaf Hok.
  - destruct (checkAndCreateTable w) as [r w'] eqn:Hrun.
    unfold checkAndCreateTable in Hrun. exec.
    repeat (split_hyp; exec; cbn [truthy negb] in *; exec; simplify_eq/=);
      store_ok_leaf Hok.
  - intros resp w' Hrun Hstatus.
    destruct (images_handler_rows _ _ _ Hrun Hstatus) as (tbl & Htbl & Hbody).
    exists (rows tbl). split; [exact Hbody|]. apply (Hok tbl Htbl).
Qed.

(** *** Listing, then deleting *)

(** X21.  Every identifier the listing shows is accepted by the delete
    route: printed in decimal and sent back as [:id], it parses to the
    same integer and the select finds the row, so the answer is 200 or
    500, never 400 or 404. *)
Theorem listed_id_is_found (w : World) (tbl : Table) (r : ImageRow) :
  images w = Some tbl →
  In r (rows tbl) →
  fault w (EvQuery (SelectPathById (row_id r))) = None →
  ∃ resp w',
    delete_handler (decimal (row_id r)) w = (Ret resp, w') ∧
    (status resp = 200 ∨ status resp = 500).
Proof.
  intros Htbl Hin Hsel. unfold delete_handler.
  rewrite parseInt_decimal. exec.
  destruct (List.filter (has_id (row_id r)) (rows tbl)) as [|r0 found] eqn:Hfound.
  { exfalso. assert (Hr : In r (List.filter (has_id (row_id r)) (rows tbl))).
    { apply List.filter_In. split; [exact Hin|]. unfold has_id. apply Z.eqb_refl. }
    rewrite Hfound in Hr. exact Hr. }
  cbn [map]. exec.
  repeat (split_match; exec); eexists _, _; (split; [reflexivity|]); cbn [status]; auto.
Qed.

(** *** The start *)

(** A configuration with the four required fields passes validation. *)
Lemma validateDbConfig_complete (config : Value) (w : World) :
  truthy config = true →
  Forall (λ k, truthy (field config k) = true) requiredFields →
  validateDbConfig config w = (Ret true, w).
Proof.
  intros Hconfig Hall. unfold validateDbConfig, requiredFields in *.
  repeat (apply Forall_cons_iff in Hall as [? Hall]).
  rewrite Hconfig. cbn [negb List.filter].
  repeat match goal with H : truthy _ = true |- _ => rewrite H; clear H end.
  reflexivity.
Qed.

(** X22.  A start that succeeds: a config file with the four required
    fields, [PORT] unset, not the packaged executable, and no failure.
    The program returns normally with the listener open on the file's
    port, or on 3001 when the file has none, the SIGINT handler
    installed, the table there (created empty if it was missing, kept
    otherwise) and the files untouched. *)
Theorem startup_success (w : World) (fields : list (string * Value)) :
  fs w !! configPath = Some (Json (VObj fields)) →
  Forall (λ k, truthy (field (VObj fields) k) = true) requiredFields →
  envPort w = None →
  pkg w = false →
  fault w (EvRead configPath) = None →
  fault w EvConnect = None →
  fault w (EvQuery SelectObjectId) = None →
  fault w (EvQuery CreateTable) = None →
  fault w (EvListen (portOf fields)) = None →
  ∃ w',
    main w = (Ret tt, w') ∧
    listening w' = Some (portOf fields) ∧
    sigint w' = Some O ∧
    images w' = Some (bootstrapped w) ∧
    fs w' = fs w.
Proof.
  intros Hfile Hall Henv Hpkg Hread Hconn Hobj Hcreate Hlisten.
  pose proof (envPort_none_falsy w Henv) as Hport.
  unfold main, initializeServer, getDbConfig. exec.
  rewrite (validateDbConfig_complete (VObj fields) _ eq_refl Hall).
  unfold sql_connect, checkAndCreateTable, getPortConfiguration, portAfterEnv,
    portFromConfigFile, portFromPrompt, app_listen, bootstrapped, portOf in *.
  exec.
  destruct (images w) as [t|] eqn:Himages;
    destruct (assoc "port" fields) as [port|] eqn:Hassoc;
    try destruct (truthy port) eqn:Htruthy;
    repeat (progress (exec; cbn [truthy negb Z.eqb]; rewrite ?Hlisten, ?Htruthy));
    eexists; (split; [reflexivity|]);
    cbn [listening sigint images fs]; repeat split; reflexivity.
Qed.

End Behaviour.

(** * The properties on the example worlds *)

(** C1.  An upload whose file is written, whose insert fails and whose
    file cannot then be removed: the handler throws the removal's error
    out of its [catch] block.  No answer is sent (the claim promises a
    500), nothing is logged about the failed removal (the claim promises
    a log entry), and the file stays on disk with no row for it. *)
Theorem upload_rollback_unlink_throws :
  let w := with_fault insertAndUnlinkFail demoWorld in
  let r := post_api_upload (node := demoPath) (Some jpegPart) w in
  fst r = Throw EPERM ∧
  fs (snd r) !! "/srv/app/uploads/images/1747221190000-123456789.jpg" = Some (Bytes 12345) ∧
  images (snd r) = images w ∧
  trace (snd r)
  = [EvWrite "/srv/app/uploads/images/1747221190000-123456789.jpg";
     EvQuery (InsertImage "/uploads/images/1747221190000-123456789.jpg");
     EvUnlink "/srv/app/uploads/images/1747221190000-123456789.jpg"].
Proof. vm_compute. repeat split. Qed.

(** C2 does not hold as stated: an identifier that parses to an integer
    that is not positive is not rejected; the store is asked for it.  So
    is an identifier with digits followed by other characters, which is
    deleted under the number its digits spell. *)
Lemma delete_nonpositive_id_reaches_store :
  parseInt "-5" = Some (-5) ∧
  delete_handler (node := demoPath) "-5" demoWorld
  = (Ret (mkResponse 404 (VObj [("error", VStr "Image not found")])),
     record (EvQuery (SelectPathById (-5))) demoWorld) ∧
  parseInt "12abc" = Some 12 ∧
  fst (delete_handler (node := demoPath) "12abc" demoWorld)
  = Ret (mkResponse 200 (VObj [("message", VStr "Image deleted")])).
Proof. vm_compute. repeat split. Qed.

(** The validation on "invalid", which is refused, and on "0", which is
    looked up. *)
Lemma delete_id_validation_witness :
  parseInt "invalid" = None ∧
  delete_handler (node := demoPath) "invalid" demoWorld
  = (Ret (mkResponse 400 (VObj [("error", VStr "Invalid ID format")])), demoWorld) ∧
  parseInt "0" = Some 0 ∧
  (∃ r w' evs,
     delete_handler (node := demoPath) "0" demoWorld = (r, w') ∧
     trace w' = (trace demoWorld ++ EvQuery (SelectPathById 0) :: evs)%list ∧
     ∀ resp, r = Ret resp → status resp ≠ 400).
Proof.
  split; [reflexivity|]. split.
  - apply (proj1 (delete_id_validation (node := demoPath))). reflexivity.
  - split; [reflexivity|].
    apply (proj2 (delete_id_validation (node := demoPath))). reflexivity.
Defined.

(** C3 does not hold as stated: the answer to a successful upload has
    no [id]; the row was given the identity value 13, which the body
    does not mention. *)
Lemma upload_success_reports_no_id :
  let r := post_api_upload (node := demoPath) (Some jpegPart) demoWorld in
  fst r = Ret (mkResponse 200
                 (VObj [("message", VStr "Image uploaded successfully");
                        ("path", VStr "/uploads/images/1747221190000-123456789.jpg");
                        ("filename", VStr "1747221190000-123456789.jpg")])) ∧
  field (VObj [("message", VStr "Image uploaded successfully");
               ("path", VStr "/uploads/images/1747221190000-123456789.jpg");
               ("filename", VStr "1747221190000-123456789.jpg")]) "id" = VUndefined ∧
  rows <$> images (snd r)
  = Some (rows demoTable ++
          [mkRow 13 "/uploads/images/1747221190000-123456789.jpg" 1747221190000])%list.
Proof. vm_compute. repeat split. Qed.

(** A JPEG of 12345 bytes uploaded into the example world. *)
Lemma upload_success_response_witness :
  ∃ resp w',
    post_api_upload (node := demoPath) (Some jpegPart) demoWorld = (Ret resp, w') ∧
    status resp = 200 ∧
    fs w' !! "/srv/app/uploads/images/1747221190000-123456789.jpg" = Some (Bytes 12345).
Proof.
  eexists (mkResponse 200 _), (snd (post_api_upload (node := demoPath) (Some jpegPart) demoWorld)).
  assert (Hrun : post_api_upload (node := demoPath) (Some jpegPart) demoWorld
                 = (Ret (mkResponse 200
                           (VObj [("message", VStr "Image uploaded successfully");
                                  ("path", VStr "/uploads/images/1747221190000-123456789.jpg");
                                  ("filename", VStr "1747221190000-123456789.jpg")])),
                    snd (post_api_upload (node := demoPath) (Some jpegPart) demoWorld))).
  { vm_compute. reflexivity. }
  split; [exact Hrun|]. split; [reflexivity|].
  destruct (upload_success_response (node := demoPath) _ _ _ _ Hrun eq_refl)
    as (p & tbl & Hpart & _ & _ & _ & Hfile).
  injection Hpart as <-. exact Hfile.
Defined.

(** C4 does not hold as stated: with the server unreachable the program
    logs that the initialization failed, without the error, and returns
    normally; [process.exit] is not called, with any code. *)
Lemma connect_failure_no_exit :
  let w := with_fault connectFails (at_start demoWorld) in
  fault w EvConnect
  = Some (mkError "ConnectionError" "Failed to connect to localhost\SQLEXPRESS") ∧
  fst (main (node := demoPath) w) = Ret tt ∧
  trace (snd (main (node := demoPath) w))
  = [EvExists "/srv/app/config.json"; EvRead "/srv/app/config.json";
     EvConsole console_log_ [VStr "Connecting to database..."]; EvConnect;
     EvConsole console_error_ [VStr "❌ Server initialization failed:"]].
Proof. vm_compute. repeat split. Qed.

(** The start with the server unreachable. *)
Lemma initialization_failure_no_exit_witness :
  let w := with_fault connectFails (at_start demoWorld) in
  startup_fails (node := demoPath) w ∧
  ∃ w' evs,
    main (node := demoPath) w = (Ret tt, w') ∧
    listening w' = listening w ∧
    sigint w' = sigint w ∧
    trace w' = (trace w ++ evs ++
                [EvConsole console_error_ [VStr "❌ Server initialization failed:"]])%list ∧
    forallb (λ e, negb (exits_or_listens e)) evs = true.
Proof.
  intros w.
  assert (Hfail : startup_fails (node := demoPath) w).
  { right. right.
    exists demoConfig, (snd (getDbConfig (node := demoPath) w)), 
      (mkError "ConnectionError" "Failed to connect to localhost\SQLEXPRESS").
    repeat split; vm_compute; reflexivity. }
  split; [exact Hfail|].
  exact (initialization_failure_no_exit (node := demoPath) w Hfail).
Defined.

(** [PORT=4000] gives 4000 over a file that says 5000; the file alone
    gives 5000; neither gives 3001. *)
Lemma port_resolution_witness :
  fst (getPortConfiguration (node := demoPath) envPortWorld) = Ret (VNum 4000) ∧
  fst (getPortConfiguration (node := demoPath) (withPortFile demoWorld)) = Ret (VNum 5000) ∧
  fst (getPortConfiguration (node := demoPath) demoWorld) = Ret (VNum 3001).
Proof.
  split; [|split].
  - apply (proj1 (port_resolution_cascade (node := demoPath) envPortWorld) "4000").
    vm_compute. reflexivity.
  - apply (proj1 (proj2 (port_resolution_cascade (node := demoPath) (withPortFile demoWorld))));
      vm_compute; reflexivity.
  - apply (proj2 (proj2 (port_resolution_cascade (node := demoPath) demoWorld)));
      [vm_compute; reflexivity | vm_compute; reflexivity | left; reflexivity].
Defined.

(** C6 does not hold as stated: a file part over the limit is answered
    with 500 by the error middleware, not with a validation error. *)
Lemma oversize_upload_answered_500 :
  fileSize < part_size hugePart ∧
  fileFilter (part_mimetype hugePart) = true ∧
  fst (post_api_upload (node := demoPath) (Some hugePart) demoWorld)
  = Ret (mkResponse 500 (VObj [("error", VStr "File too large")])).
Proof. vm_compute. repeat split. Qed.

(** No file, a part without a file name, a PDF of 6 MiB, and a PNG one
    byte over the limit. *)
Lemma upload_rejections_witness :
  post_api_upload (node := demoPath) None demoWorld
  = (Ret (mkResponse 400 (VObj [("error", VStr "No file uploaded")])), demoWorld) ∧
  post_api_upload (node := demoPath) (Some namelessPart) demoWorld
  = (Ret (mkResponse 400 (VObj [("error", VStr "No file uploaded")])), demoWorld) ∧
  post_api_upload (node := demoPath) (Some hugePdfPart) demoWorld
  = (Ret (mkResponse 400 (VObj [("error", VStr "No file uploaded")])), demoWorld) ∧
  ∃ w', post_api_upload (node := demoPath) (Some hugePart) demoWorld
        = (Ret (mkResponse 500 (VObj [("error", VStr "File too large")])), w') ∧
        images w' = images demoWorld ∧
        fs w' !! "/srv/app/uploads/images/1747221190000-123456789.png" = None.
Proof.
  split; [|split; [|split]].
  - apply (proj1 (upload_rejections (node := demoPath))).
  - apply (proj1 (proj2 (upload_rejections (node := demoPath)))). reflexivity.
  - apply (proj1 (proj2 (proj2 (upload_rejections (node := demoPath)))));
      [reflexivity | discriminate | discriminate | discriminate].
  - destruct (proj2 (proj2 (proj2 (upload_rejections (node := demoPath)))) demoWorld hugePart)
      as (err & w' & evs & Hrun & Himages & _ & _ & Herr & Hgone);
      [reflexivity | discriminate | right; left; reflexivity | reflexivity |].
    exists w'. rewrite Hrun, (Herr eq_refl). repeat split.
    + exact Himages.
    + exact (Hgone eq_refl eq_refl).
Defined.


(** No row has the identifier 999. *)
Lemma delete_missing_id_witness :
  (images (snd (delete_handler (node := demoPath) "999" demoWorld)) = images demoWorld ∧
   fs (snd (delete_handler (node := demoPath) "999" demoWorld)) = fs demoWorld) ∧
  delete_handler (node := demoPath) "999" demoWorld
  = (Ret (mkResponse 404 (VObj [("error", VStr "Image not found")])),
     record (EvQuery (SelectPathById 999)) demoWorld).
Proof.
  assert (Hnone : ∀ r, In r (rows demoTable) → row_id r ≠ 999).
  { intros r [<-|[<-|[<-|[]]]]; discriminate. }
  destruct (delete_missing_id_not_found (node := demoPath)
              demoWorld "999" 999 demoTable eq_refl eq_refl Hnone) as [Hsame Hnotfound].
  split; [exact Hsame | exact (Hnotfound eq_refl)].
Defined.

(** Two runs of the bootstrap on a database without the table. *)
Lemma checkAndCreateTable_witness :
  ∃ w1 w2 tbl,
    checkAndCreateTable freshWorld = (Ret true, w1) ∧
    checkAndCreateTable w1 = (Ret true, w2) ∧
    images w1 = Some tbl ∧
    images w2 = Some tbl.
Proof.
  destruct (checkAndCreateTable_idempotent freshWorld eq_refl eq_refl)
    as (w1 & w2 & tbl & H1 & H2 & H3 & H4 & _).
  exists w1, w2, tbl. repeat split; assumption.
Defined.

(** A damaged config file next to the four database variables. *)
Lemma getDbConfig_unparsable_witness :
  fs damagedWorld !! configPath (node := demoPath) = Some (Bytes 17) ∧
  fst (getDbConfig (node := demoPath) damagedWorld)
  = fst (getDbConfig (node := demoPath)
           (set_fs (delete (configPath (node := demoPath)) (fs damagedWorld)) damagedWorld)) ∧
  fst (getDbConfig (node := demoPath) damagedWorld) = Ret demoConfig.
Proof.
  assert (Hfile : fs damagedWorld !! configPath (node := demoPath) = Some (Bytes 17)).
  { vm_compute. reflexivity. }
  split; [exact Hfile|].
  destruct (getDbConfig_unparsable_file_as_absent (node := demoPath)
              damagedWorld 17 Hfile eq_refl) as (rest & Hsame & _ & _ & _ & _ & Henv).
  split; [exact Hsame|].
  apply (Henv "sa" "secret" "localhost\SQLEXPRESS" "ImageUploader");
    solve [vm_compute; reflexivity | discriminate].
Defined.

(** * The further properties on the example worlds *)

(** The example upload passes the middleware. *)
Lemma accepted_jpegPart : accepted jpegPart.
Proof. repeat split; [discriminate | vm_compute; discriminate]. Qed.

(** The example table keeps the identity discipline. *)
Lemma store_ok_demoWorld : store_ok demoWorld.
Proof.
  intros t Ht. injection Ht as <-. split.
  - cbn. repeat constructor; cbn; intuition discriminate.
  - intros r [<-|[<-|[<-|[]]]]; cbn; lia.
Qed.

(** X1 on the example world with a failing insert: 500, and files and rows as before. *)
Lemma upload_insert_failure_witness :
  ∃ w',
    post_api_upload (node := demoPath) (Some jpegPart) (with_fault insertFails demoWorld)
    = (Ret (mkResponse 500 (VObj [("error", VStr "DB insert failed");
                                  ("details", VStr "Connection is closed.")])), w') ∧
    fs w' = fs demoWorld ∧ images w' = images demoWorld.
Proof.
  apply (upload_insert_failure_leaves_no_orphan (node := demoPath)
           (with_fault insertFails demoWorld) jpegPart
           (RequestError "Connection is closed.") accepted_jpegPart);
    vm_compute; reflexivity.
Defined.

(** X2 on the example world: the listing after the upload ends with row 13. *)
Lemma upload_then_list_witness :
  ∃ w1 w2,
    post_api_upload (node := demoPath) (Some jpegPart) demoWorld
    = (Ret (mkResponse 200
              (VObj [("message", VStr "Image uploaded successfully");
                     ("path", VStr "/uploads/images/1747221190000-123456789.jpg");
                     ("filename", VStr "1747221190000-123456789.jpg")])), w1) ∧
    images_handler w1
    = (Ret (mkResponse 200
              (VArr (map row_json
                       (rows demoTable ++
                        [mkRow 13 "/uploads/images/1747221190000-123456789.jpg"
                           1747221190000])))), w2).
Proof.
  apply (upload_then_list (node := demoPath) demoWorld jpegPart demoTable accepted_jpegPart);
    vm_compute; reflexivity.
Defined.

(** X3 on the example world: upload, then delete of id 13; the next identity is 14. *)
Lemma upload_then_delete_witness :
  ∃ resp w1 w2,
    post_api_upload (node := demoPath) (Some jpegPart) demoWorld = (Ret resp, w1) ∧
    status resp = 200 ∧
    fs w1 !! "/srv/app/uploads/images/1747221190000-123456789.jpg" = Some (Bytes 12345) ∧
    delete_handler (node := demoPath) "13" w1
    = (Ret (mkResponse 200 (VObj [("message", VStr "Image deleted")])), w2) ∧
    fs w2 = fs demoWorld ∧
    images w2 = Some (mkTable 1 (rows demoTable) 14).
Proof.
  apply (upload_then_delete (node := demoPath) demoWorld jpegPart demoTable "13"
           accepted_jpegPart); try (vm_compute; reflexivity).
  intros r [<-|[<-|[<-|[]]]]; discriminate.
Defined.

(** X4 on the example world, where files cannot be removed: row 12 and its file stay. *)
Lemma delete_unlink_failure_witness :
  ∃ w',
    delete_handler (node := demoPath) "12" (with_fault unlinkFails demoWorld)
    = (Ret (mkResponse 500 (VObj [("error", VStr "Delete failed");
                                  ("details", VStr "EPERM: operation not permitted, unlink")])),
       w') ∧
    images w' = images demoWorld ∧ fs w' = fs demoWorld.
Proof.
  destruct (delete_unlink_failure_keeps_row (node := demoPath)
              (with_fault unlinkFails demoWorld) "12" 12 demoTable
              "/uploads/images/1747221180099-2.png" (Bytes 4096) EPERM)
    as (w' & Hrun & Himages & Hfs & _); try (vm_compute; reflexivity).
  exists w'. split; [exact Hrun|]. split; [exact Himages | exact Hfs].
Defined.

(** X5 on the example world, where the delete statement fails: the file of row 12 is gone, the row is not. *)
Lemma delete_row_failure_witness :
  ∃ w',
    delete_handler (node := demoPath) "12" (with_fault deleteRowFails demoWorld)
    = (Ret (mkResponse 500 (VObj [("error", VStr "Delete failed");
                                  ("details", VStr "Connection is closed.")])), w') ∧
    images w' = images demoWorld ∧
    fs w' = delete "/srv/app/uploads/images/1747221180099-2.png" (fs demoWorld).
Proof.
  apply (delete_row_failure_after_file_removed (node := demoPath)
           (with_fault deleteRowFails demoWorld) "12" 12 demoTable
           "/uploads/images/1747221180099-2.png" (Bytes 4096)
           (RequestError "Connection is closed."));
    vm_compute; reflexivity.
Defined.


(** X7 on the example world, with the store up and with the store down. *)
Lemma images_handler_witness :
  fst (images_handler demoWorld)
  = Ret (mkResponse 200 (VArr (map row_json (rows demoTable)))) ∧
  fst (images_handler (with_fault storeDown demoWorld))
  = Ret (mkResponse 500 (VObj [("error", VStr "DB fetch failed");
                               ("details", VStr "Connection is closed.")])).
Proof.
  split.
  - apply (proj1 (proj2 (images_handler_read_only demoWorld)) demoTable); reflexivity.
  - apply (proj1 (proj2 (proj2 (images_handler_read_only (with_fault storeDown demoWorld))))
             (RequestError "Connection is closed.")).
    reflexivity.
Defined.

(** X8 on the world without the table. *)
Lemma bootstrap_then_list_witness :
  ∃ w1,
    checkAndCreateTable freshWorld = (Ret true, w1) ∧
    fst (images_handler w1) = Ret (mkResponse 200 (VArr [])).
Proof.
  apply (bootstrap_then_list_empty freshWorld); reflexivity.
Defined.

(** X9 on the example configuration. *)
Lemma validateDbConfig_witness :
  fst (validateDbConfig demoConfig demoWorld) = Ret true ∧
  truthy demoConfig = true ∧
  Forall (λ k, truthy (field demoConfig k) = true) requiredFields.
Proof.
  assert (Hok : fst (validateDbConfig demoConfig demoWorld) = Ret true) by reflexivity.
  split; [exact Hok|].
  exact (proj1 (proj1 (validateDbConfig_accepts_iff demoConfig demoWorld)) Hok).
Defined.

(** X10 on the example world. *)
Lemma getDbConfig_file_witness :
  getDbConfig (node := demoPath) demoWorld
  = (Ret demoConfig,
     record (EvRead "/srv/app/config.json") (record (EvExists "/srv/app/config.json") demoWorld)).
Proof.
  apply (getDbConfig_file_verbatim (node := demoPath) demoWorld demoConfig);
    vm_compute; reflexivity.
Defined.

(** X11 on the world with the four variables and no file. *)
Lemma getDbConfig_env_witness :
  ∃ w1,
    getDbConfig (node := demoPath) envOnlyWorld = (Ret demoConfig, w1) ∧
    fs w1 !! "/srv/app/config.json" = Some (Json demoConfig) ∧
    fst (getDbConfig (node := demoPath) (with_env ∅ w1)) = Ret demoConfig.
Proof.
  destruct (getDbConfig_env_persisted (node := demoPath) envOnlyWorld)
    as (user & password & server & database & w1 & Hu & Hp & Hs & Hd & Hrun & _ & _ & Hsaved & _);
    try (vm_compute; reflexivity).
  vm_compute in Hu, Hp, Hs, Hd.
  injection Hu as <-. injection Hp as <-. injection Hs as <-. injection Hd as <-.
  destruct (Hsaved eq_refl) as [Hfs Hreload].
  exists w1. split; [exact Hrun|]. split.
  - rewrite Hfs. apply lookup_insert_eq.
  - apply Hreload. reflexivity.
Defined.

(** X12 on the world where an operator answers the five questions. *)
Lemma getDbConfig_prompted_witness :
  ∃ w1,
    getDbConfig (node := demoPath) promptWorld = (Ret demoConfig, w1) ∧
    fs w1 = <["/srv/app/config.json" := Json demoConfig]> (fs promptWorld) ∧
    stdin w1 = [].
Proof.
  destruct (getDbConfig_prompted (node := demoPath) promptWorld) as [Hanswered _];
    try (vm_compute; reflexivity).
  destruct (Hanswered "sa" "secret" "localhost\SQLEXPRESS" "ImageUploader" "Y" [] eq_refl)
    as (_ & Hsave & _).
  exact (Hsave eq_refl eq_refl).
Defined.

(** X13 on the packaged world where the operator asks for port 8080. *)
Lemma getPortConfiguration_bounds_witness :
  fst (getPortConfiguration (node := demoPath) portPromptWorld) = Ret (VNum 8080) ∧
  ∃ n, VNum 8080 = VNum n ∧ 1 <= n <= 65535.
Proof.
  assert (Hrun : fst (getPortConfiguration (node := demoPath) portPromptWorld)
                 = Ret (VNum 8080)) by (vm_compute; reflexivity).
  split; [exact Hrun|].
  apply (getPortConfiguration_bounds (node := demoPath) portPromptWorld);
    [vm_compute; reflexivity | vm_compute; reflexivity | exact Hrun].
Defined.

(** X14 on the same world: the port is added to the credentials in the file. *)
Lemma getPortConfiguration_prompt_witness :
  ∃ w1,
    getPortConfiguration (node := demoPath) portPromptWorld = (Ret (VNum 8080), w1) ∧
    stdin w1 = [] ∧
    fs w1 !! "/srv/app/config.json"
    = Some (Json (VObj [("user", VStr "sa"); ("password", VStr "secret");
                        ("server", VStr "localhost\SQLEXPRESS");
                        ("database", VStr "ImageUploader"); ("port", VNum 8080)])) ∧
    fst (getPortConfiguration (node := demoPath) w1) = Ret (VNum 8080).
Proof.
  destruct (getPortConfiguration_prompt_persisted (node := demoPath) portPromptWorld
              [("user", VStr "sa"); ("password", VStr "secret");
               ("server", VStr "localhost\SQLEXPRESS"); ("database", VStr "ImageUploader")]
              "y" "8080" [] 8080)
    as (w1 & Hrun & Hin & Hsaved & _); try (vm_compute; reflexivity); try lia.
  destruct (Hsaved eq_refl) as (Hfs & _ & Hreload).
  exists w1. split; [exact Hrun|]. split; [exact Hin|]. split.
  - rewrite Hfs. apply lookup_insert_eq.
  - rewrite Hreload. reflexivity.
Defined.

(** X15 on the packaged world without a config file. *)
Lemma port_only_file_witness :
  ∃ w1,
    getPortConfiguration (node := demoPath) portPromptNoFileWorld = (Ret (VNum 8080), w1) ∧
    fs w1 !! "/srv/app/config.json" = Some (Json (VObj [("port", VNum 8080)])) ∧
    startup_fails (node := demoPath) w1.
Proof.
  destruct (port_only_file_fails_next_start (node := demoPath) portPromptNoFileWorld
              "y" "8080" [] 8080)
    as (w1 & Hrun & Hfs & w2 & w3 & _ & _ & Hfails);
    try (vm_compute; reflexivity); try lia.
  exists w1. split; [exact Hrun|]. split; [exact Hfs | exact Hfails].
Defined.

(** X16 on the example world, with the store down and with the store up. *)
Lemma checkAndCreateTable_failure_witness :
  checkAndCreateTable (with_fault storeDown demoWorld)
  = (Throw (DatabaseError "Error checking/creating table: Connection is closed."),
     record (EvQuery SelectObjectId) (with_fault storeDown demoWorld)) ∧
  images (snd (checkAndCreateTable demoWorld)) = images demoWorld.
Proof.
  split.
  - apply (proj1 (checkAndCreateTable_failure (with_fault storeDown demoWorld))
             (RequestError "Connection is closed.")).
    reflexivity.
  - apply (proj2 (proj2 (proj2 (checkAndCreateTable_failure demoWorld)))).
    eexists. reflexivity.
Defined.

(** X19 on the example world. *)
Lemma SIGINT_twice_witness :
  ∃ w1,
    on_SIGINT demoWorld = (Ret tt, w1) ∧
    listening w1 = listening demoWorld ∧ images w1 = images demoWorld ∧
    fs w1 = fs demoWorld ∧
    fst (on_SIGINT w1) = Exit 1.
Proof. apply (SIGINT_twice demoWorld). reflexivity. Defined.

(** X20 on the example world, after an upload and after a delete. *)
Lemma identity_discipline_witness :
  store_ok demoWorld ∧
  store_ok (snd (post_api_upload (node := demoPath) (Some jpegPart) demoWorld)) ∧
  store_ok (snd (delete_handler (node := demoPath) "12" demoWorld)).
Proof.
  split; [exact store_ok_demoWorld|].
  destruct (identity_discipline_kept (node := demoPath) demoWorld store_ok_demoWorld)
    as (Hupload & Hdelete & _).
  split; [apply Hupload | apply Hdelete].
Defined.

(** X21 on row 7 of the example table. *)
Lemma listed_id_witness :
  ∃ resp w',
    delete_handler (node := demoPath) "7" demoWorld = (Ret resp, w') ∧
    (status resp = 200 ∨ status resp = 500).
Proof.
  apply (listed_id_is_found (node := demoPath) demoWorld demoTable
           (mkRow 7 "/uploads/images/1747221180077-7.gif" 1747221180077)).
  - reflexivity.
  - right. left. reflexivity.
  - reflexivity.
Defined.

(** X22 on the example world before the start. *)
Lemma startup_success_witness :
  ∃ w',
    main (node := demoPath) (at_start demoWorld) = (Ret tt, w') ∧
    listening w' = Some (VNum 3001) ∧
    sigint w' = Some O ∧
    images w' = Some demoTable ∧
    fs w' = fs demoWorld.
Proof.
  apply (startup_success (node := demoPath) (at_start demoWorld)
           [("user", VStr "sa"); ("password", VStr "secret");
            ("server", VStr "localhost\SQLEXPRESS"); ("database", VStr "ImageUploader")]);
    try (vm_compute; reflexivity).
  repeat constructor.
Defined.

